(** * tacanno: expense store, calendar bounds, chat tools and e-mail sweep

    A shallow embedding of [db.py], [reports.py], [expense_agent.py] and
    [gmail_agent.py].

    Conventions of the embedding.
    - Python [int] is [Z]; Python [str] is [string] (a sequence of bytes,
      compared bytewise as SQLite's BINARY collation does).
    - Python [float] and SQLite [REAL] are modelled by exact rationals [Q],
      compared with [==]; the rounding error of binary64 arithmetic, NaN and
      infinities are outside the model.
    - A Python exception is a value of [exn]; a call that may raise returns
      a [result].
    - The SQLite file is a record [db] of three tables; every statement of
      [db.py] is a function on that record.
    - [json.dumps] is not modelled: a tool returns the structure it would
      serialise.
    - [str.lower] and [str.strip] act on the ASCII letters and blanks.
    - The clock, the classifier of e-mails and the conversions between
      floats and texts are arguments of the functions that use them. *)

From Stdlib Require Import ZArith QArith Qround Lqa Bool List String Ascii Lia.
From Stdlib Require Import Permutation Sorted.
Import ListNotations.

Local Open Scope string_scope.
Local Open Scope Z_scope.

(** ** Exceptions and results *)

Inductive exn : Type :=
| ValueError
| TypeError
| AttributeError
| OverflowError
| ProgrammingError   (* sqlite3: a parameter of an unsupported type *)
| IntegrityError.    (* sqlite3: a constraint of the schema failed *)

Inductive result (A : Type) : Type :=
| Ok (a : A)
| Raise (e : exn).

Arguments Ok {A} a.
Arguments Raise {A} e.

Definition bind {A B : Type} (r : result A) (k : A -> result B) : result B :=
  match r with
  | Ok a => k a
  | Raise e => Raise e
  end.

Notation "'let*' x ':=' r 'in' k" := (bind r (fun x => k))
  (at level 10, x pattern, r at level 100, k at level 200).

(** ** Python's [datetime.date], after CPython's reference implementation *)

Module PyDate.

Definition MINYEAR : Z := 1.
Definition MAXYEAR : Z := 9999.

Definition _is_leap (year : Z) : bool :=
  (year mod 4 =? 0) && (negb (year mod 100 =? 0) || (year mod 400 =? 0)).

Definition _DAYS_IN_MONTH (month : Z) : Z :=
  match month with
  | 1 => 31 | 2 => 28 | 3 => 31 | 4 => 30 | 5 => 31 | 6 => 30
  | 7 => 31 | 8 => 31 | 9 => 30 | 10 => 31 | 11 => 30 | 12 => 31
  | _ => -1
  end.

Definition _DAYS_BEFORE_MONTH (month : Z) : Z :=
  match month with
  | 1 => 0 | 2 => 31 | 3 => 59 | 4 => 90 | 5 => 120 | 6 => 151
  | 7 => 181 | 8 => 212 | 9 => 243 | 10 => 273 | 11 => 304 | 12 => 334
  | _ => -1
  end.

Definition _days_before_year (year : Z) : Z :=
  let y := year - 1 in
  y * 365 + y / 4 - y / 100 + y / 400.

Definition _days_in_month (year month : Z) : Z :=
  if (month =? 2) && _is_leap year then 29 else _DAYS_IN_MONTH month.

Definition _days_before_month (year month : Z) : Z :=
  _DAYS_BEFORE_MONTH month
  + (if (2 <? month) && _is_leap year then 1 else 0).

Definition _ymd2ord (year month day : Z) : Z :=
  _days_before_year year + _days_before_month year month + day.

Definition _DI400Y : Z := Eval cbv in _days_before_year 401.
Definition _DI100Y : Z := Eval cbv in _days_before_year 101.
Definition _DI4Y : Z := Eval cbv in _days_before_year 5.
Definition _MAXORDINAL : Z := Eval cbv in _ymd2ord 9999 12 31.

Definition _ord2ymd (n0 : Z) : Z * Z * Z :=
  let n := n0 - 1 in
  let n400 := n / _DI400Y in
  let n := n mod _DI400Y in
  let year := n400 * 400 + 1 in
  let n100 := n / _DI100Y in
  let n := n mod _DI100Y in
  let n4 := n / _DI4Y in
  let n := n mod _DI4Y in
  let n1 := n / 365 in
  let n := n mod 365 in
  let year := year + (n100 * 100 + n4 * 4 + n1) in
  if (n1 =? 4) || (n100 =? 4) then (year - 1, 12, 31)
  else
    let leapyear := (n1 =? 3) && (negb (n4 =? 24) || (n100 =? 3)) in
    let month := Z.shiftr (n + 50) 5 in
    let preceding :=
      _DAYS_BEFORE_MONTH month
      + (if (2 <? month) && leapyear then 1 else 0) in
    if n <? preceding then
      let month := month - 1 in
      let preceding :=
        preceding
        - (_DAYS_IN_MONTH month
           + (if (month =? 2) && leapyear then 1 else 0)) in
      (year, month, n - preceding + 1)
    else (year, month, n - preceding + 1).

(** A [date] object: the three fields, checked by the constructor. *)
Record date : Type := mkdate { year : Z; month : Z; day : Z }.

Definition _check_date_fields (y m d : Z) : result date :=
  if negb ((MINYEAR <=? y) && (y <=? MAXYEAR)) then Raise ValueError
  else if negb ((1 <=? m) && (m <=? 12)) then Raise ValueError
  else if negb ((1 <=? d) && (d <=? _days_in_month y m)) then Raise ValueError
  else Ok (mkdate y m d).

Definition new (y m d : Z) : result date := _check_date_fields y m d.

Definition toordinal (t : date) : Z := _ymd2ord (year t) (month t) (day t).

Definition fromordinal (n : Z) : date :=
  let '(y, m, d) := _ord2ymd n in mkdate y m d.

(** [date - timedelta(days=k)] *)
Definition sub_days (t : date) (k : Z) : result date :=
  let o := toordinal t - k in
  if (0 <? o) && (o <=? _MAXORDINAL) then Ok (fromordinal o)
  else Raise OverflowError.

(** Decimal digits of a non-negative integer, most significant first. *)
Definition digit_char (d : Z) : ascii := ascii_of_nat (48 + Z.to_nat d).

Fixpoint dec_digits (fuel : nat) (n : Z) (acc : string) : string :=
  match fuel with
  | O => acc
  | S fuel' =>
      let acc' := String (digit_char (n mod 10)) acc in
      if n / 10 =? 0 then acc' else dec_digits fuel' (n / 10) acc'
  end.

Definition decimal (n : Z) : string :=
  dec_digits (S (Z.to_nat (Z.log2 n))) n "".

Fixpoint zeros (k : nat) : string :=
  match k with
  | O => ""
  | S k' => String "0" (zeros k')
  end.

(** The conversion [%0<width>d]. *)
Definition format_d (width : nat) (n : Z) : string :=
  if n <? 0 then
    let s := decimal (- n) in
    String "-" (zeros (width - 1 - String.length s) ++ s)
  else
    let s := decimal n in
    zeros (width - String.length s) ++ s.

Definition isoformat (t : date) : string :=
  format_d 4 (year t) ++ "-" ++ format_d 2 (month t) ++ "-"
  ++ format_d 2 (day t).

End PyDate.

(** ** reports.py *)

Definition iso_first_last_of_month (year month : Z)
  : result (string * string) :=
  let* first := PyDate.new year month 1 in
  let* last :=
    (if month =? 12 then PyDate.new year 12 31
     else let* next := PyDate.new year (month + 1) 1 in
          PyDate.sub_days next 1) in
  Ok (PyDate.isoformat first, PyDate.isoformat last).

Example iso_feb_2024 :
  iso_first_last_of_month 2024 2 = Ok ("2024-02-01", "2024-02-29").
Proof. reflexivity. Qed.

Example iso_feb_2025 :
  iso_first_last_of_month 2025 2 = Ok ("2025-02-01", "2025-02-28").
Proof. reflexivity. Qed.

Example iso_dec_0007 :
  iso_first_last_of_month 7 12 = Ok ("0007-12-01", "0007-12-31").
Proof. reflexivity. Qed.

(** ** Python values *)

(** The values that [json.loads] and the callers of [db.py] produce. *)
#[local] Set Warnings "-register-all".
Inductive pyval : Type :=
| PyNone
| PyBool (b : bool)
| PyInt (z : Z)
| PyFloat (q : Q)
| PyStr (s : string)
| PyList (l : list pyval)
| PyDict (d : list (string * pyval)).

(** A [dict] with string keys: an association list in insertion order,
    without repeated keys. *)
Definition pydict : Type := list (string * pyval).

Fixpoint dict_lookup {V : Type} (k : string) (d : list (string * V))
  : option V :=
  match d with
  | [] => None
  | (k', v) :: d' => if String.eqb k k' then Some v else dict_lookup k d'
  end.

(** [d[k] = v]: an existing key keeps its place, a new key goes last. *)
Fixpoint dict_set {V : Type} (k : string) (v : V) (d : list (string * V))
  : list (string * V) :=
  match d with
  | [] => [(k, v)]
  | (k', v') :: d' =>
      if String.eqb k k' then (k', v) :: d'
      else (k', v') :: dict_set k v d'
  end.

(** [{key(x): val(x) for x in l}] *)
Definition dict_of {A V : Type} (key : A -> string) (val : A -> V)
  (l : list A) : list (string * V) :=
  fold_left (fun d x => dict_set (key x) (val x) d) l [].

(** [k in d] *)
Definition dict_mem {V : Type} (k : string) (d : list (string * V)) : bool :=
  match dict_lookup k d with Some _ => true | None => false end.

(** [d.get(k)] and [d.get(k, default)] *)
Definition dict_get (d : pydict) (k : string) : pyval :=
  match dict_lookup k d with Some v => v | None => PyNone end.

Definition dict_get_default (d : pydict) (k : string) (default : pyval)
  : pyval :=
  match dict_lookup k d with Some v => v | None => default end.

Definition Qnonzero (q : Q) : bool := negb (Qeq_bool q 0).

(** Truth value of an object. *)
Definition truthy (v : pyval) : bool :=
  match v with
  | PyNone => false
  | PyBool b => b
  | PyInt z => negb (z =? 0)
  | PyFloat q => Qnonzero q
  | PyStr s => negb (String.eqb s "")
  | PyList l => match l with [] => false | _ => true end
  | PyDict d => match d with [] => false | _ => true end
  end.

(** [a or b] *)
Definition py_or (a b : pyval) : pyval := if truthy a then a else b.

(** [s or t] on a nullable string, as the tools use it on columns. *)
Definition str_or (s : option string) (t : string) : string :=
  match s with
  | Some x => if String.eqb x "" then t else x
  | None => t
  end.

(** The numeric value of a number or a bool, for comparisons. *)
Definition py_number (v : pyval) : result Q :=
  match v with
  | PyBool b => Ok (if b then 1%Q else 0%Q)
  | PyInt z => Ok (inject_Z z)
  | PyFloat q => Ok q
  | _ => Raise TypeError
  end.

(** [v >= q] for a float literal [q]. *)
Definition py_ge (v : pyval) (q : Q) : result bool :=
  let* x := py_number v in Ok (Qle_bool q x).

(** [str.lower()], on the ASCII letters. *)
Definition lower_char (c : ascii) : ascii :=
  let n := nat_of_ascii c in
  if (Nat.leb 65 n && Nat.leb n 90)%bool then ascii_of_nat (n + 32) else c.

Fixpoint lower (s : string) : string :=
  match s with
  | EmptyString => EmptyString
  | String c s' => String (lower_char c) (lower s')
  end.

(** [str.strip()], on the ASCII whitespace. *)
Definition is_space (c : ascii) : bool :=
  let n := nat_of_ascii c in
  (Nat.leb 9 n && Nat.leb n 13)%bool || (Nat.leb 28 n && Nat.leb n 32)%bool.

Fixpoint lstrip (s : string) : string :=
  match s with
  | EmptyString => EmptyString
  | String c s' => if is_space c then lstrip s' else s
  end.

Fixpoint rstrip (s : string) : string :=
  match s with
  | EmptyString => EmptyString
  | String c s' =>
      match rstrip s' with
      | EmptyString => if is_space c then EmptyString else String c EmptyString
      | r => String c r
      end
  end.

Definition strip (s : string) : string := rstrip (lstrip s).

(** [round(x, 2)]: to the nearest multiple of 1/100, ties to even. *)
Definition round_half_even (q : Q) : Z :=
  let f := Qfloor q in
  let r := (q - inject_Z f)%Q in
  match (r ?= 1 # 2)%Q with
  | Lt => f
  | Gt => f + 1
  | Eq => if Z.even f then f else f + 1
  end.

Definition round2 (q : Q) : Q := (round_half_even (q * 100) # 100)%Q.

Example round2_350 : (round2 (100 + 250) == 350)%Q.
Proof. reflexivity. Qed.

Example round2_tie_even : (round2 (1 # 8) == 12 # 100)%Q.
Proof. reflexivity. Qed.

Example round2_tie_odd : (round2 (3 # 8) == 38 # 100)%Q.
Proof. reflexivity. Qed.

Example round2_neg : (round2 (- (1 # 1000)) == 0)%Q.
Proof. reflexivity. Qed.

Example strip_ex : strip "  a b [From: x]  " = "a b [From: x]".
Proof. reflexivity. Qed.

Example lower_ex : lower "FoOd-1" = "food-1".
Proof. reflexivity. Qed.

(** ** db.py *)

(** The tables created by [init_db]. The columns declared TEXT hold NULL or a
    text; [amount] is REAL and is always bound to a float by its writers. *)
Record expense_row : Type := mk_expense {
  e_id : Z;
  e_date : option string;
  e_vendor : option string;
  e_amount : Q;
  e_currency : option string;
  e_category : option string;
  e_source : option string;
  e_notes : option string;
  e_email_id : option string     (* UNIQUE *)
}.

Record budget_row : Type := mk_budget {
  b_id : Z;
  b_category : string;           (* UNIQUE *)
  b_amount : Q;
  b_period : string
}.

Record sync_row : Type := mk_sync {
  last_sync_timestamp : option string;
  last_history_id : option string
}.

(** The database file: the rows of each table in rowid order, the
    AUTOINCREMENT counters, and the row [id = 1] of [sync_state], if any. *)
Record db : Type := mk_db {
  expenses : list expense_row;
  expenses_seq : Z;
  budgets : list budget_row;
  budgets_seq : Z;
  sync_state : option sync_row
}.

Definition init_db : db := mk_db [] 0 [] 0 None.

Definition opt_string_eqb (a b : option string) : bool :=
  match a, b with
  | Some x, Some y => String.eqb x y
  | None, None => true
  | _, _ => false
  end.

(** [x BETWEEN lo AND hi] on a TEXT column; NULL is never between. *)
Definition between (lo hi : string) (x : option string) : bool :=
  match x with
  | Some s => String.leb lo s && String.leb s hi
  | None => false
  end.

(** [SUM(...)]: NULL over no row. *)
Definition sql_sum (l : list Q) : option Q :=
  match l with
  | [] => None
  | _ => Some (fold_left Qplus l 0%Q)
  end.

(** Stable insertion sort, for [ORDER BY]; [le a b] says that [a] may come
    before [b]. Rows that [le] does not separate keep their order. *)
Fixpoint insert_sorted {A : Type} (le : A -> A -> bool) (x : A) (l : list A)
  : list A :=
  match l with
  | [] => [x]
  | y :: l' => if le x y then x :: l else y :: insert_sorted le x l'
  end.

Definition order_by {A : Type} (le : A -> A -> bool) (l : list A) : list A :=
  fold_right (insert_sorted le) [] l.

(** NULL sorts before every text in ascending order. *)
Definition opt_string_leb (a b : option string) : bool :=
  match a, b with
  | None, _ => true
  | Some _, None => false
  | Some x, Some y => String.leb x y
  end.

(** A row of the result of [aggregate_by_field]. *)
Record agg_row : Type := mk_agg {
  field : string;
  total : Q;
  count : Z
}.

(** A group of [GROUP BY]: its key, [SUM(amount)] and [COUNT( * )]. *)
Definition group : Type := (option string * Q * Z)%type.

Fixpoint group_add (k : option string) (a : Q) (gs : list group)
  : list group :=
  match gs with
  | [] => [(k, a, 1)]
  | (k', t, c) :: gs' =>
      if opt_string_eqb k k' then (k', (t + a)%Q, c + 1) :: gs'
      else (k', t, c) :: group_add k a gs'
  end.

Definition group_by (key : expense_row -> option string)
  (rows : list expense_row) : list group :=
  fold_left (fun gs r => group_add (key r) (e_amount r) gs) rows [].

Definition group_total (g : group) : Q := snd (fst g).

Section Db.

(** What the interpreter and SQLite compute on floats and texts:
    [float(s)] on a text ([None] when it raises ValueError), and the text
    that a TEXT column stores for a real. *)
Variable float_of_str : string -> option Q.
Variable text_of_real : Q -> string.

(** [float(v)] *)
Definition py_float (v : pyval) : result Q :=
  match v with
  | PyBool b => Ok (if b then 1%Q else 0%Q)
  | PyInt z => Ok (inject_Z z)
  | PyFloat q => Ok q
  | PyStr s =>
      match float_of_str s with
      | Some q => Ok q
      | None => Raise ValueError
      end
  | _ => Raise TypeError
  end.

(** Binding a parameter to a column of TEXT affinity. *)
Definition bind_text (v : pyval) : result (option string) :=
  match v with
  | PyNone => Ok None
  | PyBool b => Ok (Some (if b then "1" else "0"))
  | PyInt z => Ok (Some (PyDate.format_d 0 z))
  | PyFloat q => Ok (Some (text_of_real q))
  | PyStr s => Ok (Some s)
  | _ => Raise ProgrammingError
  end.

(** The UNIQUE constraint of [expenses.email_id]; NULLs never collide. *)
Definition email_id_taken (rows : list expense_row) (k : option string)
  : bool :=
  match k with
  | None => false
  | Some s => existsb (fun r => opt_string_eqb (e_email_id r) (Some s)) rows
  end.

Definition save_expense (d : db) (exp : pydict) : result db :=
  let* amount := py_float (py_or (dict_get exp "amount") (PyInt 0)) in
  let* date := bind_text (dict_get exp "date") in
  let* vendor := bind_text (dict_get exp "vendor") in
  let* currency := bind_text (dict_get exp "currency") in
  let* category := bind_text (dict_get exp "category") in
  let* source := bind_text (dict_get exp "source") in
  let* notes := bind_text (dict_get exp "notes") in
  let* email_id := bind_text (dict_get exp "email_id") in
  if email_id_taken (expenses d) email_id then Raise IntegrityError
  else
    let id := expenses_seq d + 1 in
    Ok (mk_db
          (expenses d ++
           [mk_expense id date vendor amount currency category source
              notes email_id])
          id (budgets d) (budgets_seq d) (sync_state d)).

End Db.

(** [INSERT ... ON CONFLICT(category) DO UPDATE] *)
Fixpoint upsert_budget (category : string) (amount : Q) (period : string)
  (next : Z) (rows : list budget_row) : list budget_row * bool :=
  match rows with
  | [] => ([mk_budget next category amount period], true)
  | b :: rows' =>
      if String.eqb (b_category b) category
      then (mk_budget (b_id b) category amount period :: rows', false)
      else let '(rs, fresh) := upsert_budget category amount period next rows'
           in (b :: rs, fresh)
  end.

Definition set_budget (d : db) (category : string) (amount : Q)
  (period : string) : db :=
  let '(rows, fresh) :=
    upsert_budget category amount period (budgets_seq d + 1) (budgets d) in
  mk_db (expenses d) (expenses_seq d) rows
    (if fresh then budgets_seq d + 1 else budgets_seq d) (sync_state d).

Definition get_budgets (d : db) : list budget_row := budgets d.

(** [ORDER BY date ASC]: SQL leaves the order of rows with equal dates open;
    here they keep the order of their rowids. *)
Definition get_expenses_between (d : db) (start_date end_date : string)
  : list expense_row :=
  order_by (fun a b => opt_string_leb (e_date a) (e_date b))
    (filter (fun r => between start_date end_date (e_date r)) (expenses d)).

(** [GROUP BY] yields one row per value of the column, NULL being a value
    of its own; [ORDER BY total DESC] sorts them, and groups with equal
    totals, whose order SQL leaves open, stay in the order in which their
    first rows were inserted. *)
Definition aggregate_by_field (d : db) (start_date end_date : string)
  (field : string) : list agg_row :=
  let field :=
    if negb (String.eqb field "category" || String.eqb field "vendor")
    then "category" else field in
  let key := if String.eqb field "vendor" then e_vendor else e_category in
  let rows :=
    filter (fun r => between start_date end_date (e_date r)) (expenses d) in
  let groups :=
    order_by (fun g h => Qle_bool (group_total h) (group_total g))
      (group_by key rows) in
  map (fun g : group =>
         let '(k, t, c) := g in mk_agg (str_or k "Uncategorized") t c)
    groups.

Definition total_spent (d : db) (start_date end_date : string) : Q :=
  let row :=
    sql_sum
      (map e_amount
         (filter (fun r => between start_date end_date (e_date r))
            (expenses d))) in
  match row with
  | Some q => if Qnonzero q then q else 0%Q
  | None => 0%Q
  end.

Definition assign_category_to_expense (d : db) (expense_id : Z)
  (category : string) : db :=
  mk_db
    (map (fun r =>
            if e_id r =? expense_id
            then mk_expense (e_id r) (e_date r) (e_vendor r) (e_amount r)
                   (e_currency r) (Some category) (e_source r) (e_notes r)
                   (e_email_id r)
            else r)
       (expenses d))
    (expenses_seq d) (budgets d) (budgets_seq d) (sync_state d).

Definition get_sync_state (d : db) : sync_row :=
  match sync_state d with
  | Some row => row
  | None => mk_sync None None
  end.

(** [COALESCE(a, b)] *)
Definition coalesce (a b : option string) : option string :=
  match a with
  | Some _ => a
  | None => b
  end.

Definition set_sync_state (d : db) (timestamp history_id : option string)
  : db :=
  mk_db (expenses d) (expenses_seq d) (budgets d) (budgets_seq d)
    (Some
       match sync_state d with
       | None => mk_sync timestamp history_id
       | Some row =>
           mk_sync (coalesce timestamp (last_sync_timestamp row))
             (coalesce history_id (last_history_id row))
       end).

Definition email_already_processed (d : db) (email_id : string) : bool :=
  existsb (fun r => opt_string_eqb (e_email_id r) (Some email_id))
    (expenses d).

(** ** expense_agent.py *)

(** [l[start:]] *)
Definition slice_from {A : Type} (start : Z) (l : list A) : list A :=
  if start <? 0
  then skipn (Z.to_nat (Z.max 0 (Z.of_nat (List.length l) + start))) l
  else skipn (Z.to_nat start) l.

(** [sum(...)] over floats *)
Definition py_sum (l : list Q) : Q := fold_left Qplus l 0%Q.

(** [x or default] on an optional integer argument. *)
Definition int_or (x : option Z) (default : Z) : Z :=
  match x with
  | Some v => if v =? 0 then default else v
  | None => default
  end.

Record category_line : Type := mk_category_line {
  cl_category : string;
  cl_amount : Q;
  cl_count : Z
}.

Record vendor_line : Type := mk_vendor_line {
  vl_vendor : string;
  vl_amount : Q
}.

Record monthly_summary : Type := mk_monthly_summary {
  ms_period : string;
  ms_total_spent : Q;
  ms_by_category : list category_line;
  ms_top_vendors : list vendor_line
}.

Record budget_status : Type := mk_budget_status {
  bs_category : string;
  bs_budget : option Q;
  bs_spent : Q;
  bs_remaining : option Q;
  bs_over_budget : bool
}.

Record recent_expense : Type := mk_recent_expense {
  re_date : option string;
  re_vendor : string;
  re_amount : Q;
  re_category : string;
  re_currency : string
}.

Record transaction : Type := mk_transaction {
  tx_date : option string;
  tx_vendor : option string;
  tx_amount : Q
}.

Record category_spending : Type := mk_category_spending {
  cs_category : string;
  cs_period : string;
  cs_total : Q;
  cs_transaction_count : Z;
  cs_transactions : list transaction
}.

(** [f"{year}-{month:02d}"] *)
Definition period_label (year month : Z) : string :=
  PyDate.format_d 0 year ++ "-" ++ PyDate.format_d 2 month.

(** The tools read the clock: [now_year] and [now_month] are the fields of
    [datetime.now(timezone.utc)]. *)
Definition get_monthly_summary (d : db) (now_year now_month : Z)
  (year month : option Z) : result monthly_summary :=
  let year := int_or year now_year in
  let month := int_or month now_month in
  let* (start, end_) := iso_first_last_of_month year month in
  let total_ := total_spent d start end_ in
  let by_category := aggregate_by_field d start end_ "category" in
  let by_vendor := aggregate_by_field d start end_ "vendor" in
  Ok (mk_monthly_summary
        (period_label year month)
        (round2 total_)
        (map (fun c => mk_category_line (field c) (round2 (total c)) (count c))
           (firstn 10 by_category))
        (map (fun v => mk_vendor_line (field v) (round2 (total v)))
           (firstn 5 by_vendor))).

Definition get_budget_status (d : db) (now_year now_month : Z)
  : result (list budget_status) :=
  let* (start, end_) := iso_first_last_of_month now_year now_month in
  let by_category := aggregate_by_field d start end_ "category" in
  let budgets := get_budgets d in
  let budget_map := dict_of b_category b_amount budgets in
  let spent_map := dict_of field total by_category in
  let status :=
    map (fun '(category, budget) =>
           let spent :=
             match dict_lookup category spent_map with
             | Some s => s
             | None => 0%Q
             end in
           let remaining := (budget - spent)%Q in
           mk_budget_status category (Some budget) (round2 spent)
             (Some (round2 remaining))
             (negb (Qle_bool 0 remaining)))
      budget_map in
  let unbudgeted :=
    map (fun cat_data =>
           mk_budget_status (field cat_data) None (round2 (total cat_data))
             None false)
      (filter (fun cat_data => negb (dict_mem (field cat_data) budget_map))
         by_category) in
  Ok (status ++ unbudgeted)%list.

Definition get_recent_expenses (d : db) (now_year now_month : Z) (limit : Z)
  : result (list recent_expense) :=
  let* (start, end_) := iso_first_last_of_month now_year now_month in
  let expenses := get_expenses_between d start end_ in
  let recent :=
    if limit <? Z.of_nat (List.length expenses)
    then slice_from (- limit) expenses else expenses in
  let recent := rev recent in
  Ok (map (fun exp =>
             mk_recent_expense (e_date exp) (str_or (e_vendor exp) "Unknown")
               (e_amount exp) (str_or (e_category exp) "Uncategorized")
               (str_or (e_currency exp) ""))
        recent).

Definition get_category_spending (d : db) (now_year now_month : Z)
  (category : string) (year month : option Z) : result category_spending :=
  let year := int_or year now_year in
  let month := int_or month now_month in
  let* (start, end_) := iso_first_last_of_month year month in
  let expenses := get_expenses_between d start end_ in
  let category_lower := lower category in
  let filtered :=
    filter (fun e =>
              String.eqb (lower (str_or (e_category e) "")) category_lower)
      expenses in
  let total := py_sum (map e_amount filtered) in
  Ok (mk_category_spending
        category
        (period_label year month)
        (round2 total)
        (Z.of_nat (List.length filtered))
        (map (fun e => mk_transaction (e_date e) (e_vendor e) (e_amount e))
           (slice_from (-10) filtered))).

(** [s or None] to the value bound in a dict. *)
Definition opt_str_val (s : option string) : pyval :=
  match s with
  | Some x => PyStr x
  | None => PyNone
  end.

Section Agents.

Variable float_of_str : string -> option Q.
Variable text_of_real : Q -> string.

(** [today] is [datetime.now(timezone.utc).strftime("%Y-%m-%d")]. The
    tool answers with the dict it saved. *)
Definition record_expense (d : db) (today : string) (amount : Q)
  (vendor category date currency notes : option string)
  : db * result pydict :=
  let date := str_or date today in
  let expense_data : pydict :=
    [ ("amount", PyFloat amount);
      ("vendor", opt_str_val vendor);
      ("category", PyStr (str_or category "Uncategorized"));
      ("date", PyStr date);
      ("currency", opt_str_val currency);
      ("notes", opt_str_val notes);
      ("source", PyStr "chat") ] in
  match save_expense float_of_str text_of_real d expense_data with
  | Ok d' => (d', Ok expense_data)
  | Raise e => (d, Raise e)
  end.

(** ** gmail_agent.py *)

Record email : Type := mk_email {
  em_id : string;
  em_subject : string;
  em_sender : string;
  em_body : string;
  em_date : string
}.

Record sweep_stats : Type := mk_stats {
  emails_checked : Z;
  expenses_found : Z;
  expenses_saved : Z
}.

(** [classify_email] asks a language model and returns what [json.loads]
    made of the answer, or its own fallback dict: it never raises.
    [py_repr] is [str()] on floats, lists and dicts. *)
Variable classify_email : string -> string -> string -> pyval.
Variable py_repr : pyval -> string.

(** [str(v)], as an f-string formats a field. *)
Definition py_str (v : pyval) : string :=
  match v with
  | PyNone => "None"
  | PyBool b => if b then "True" else "False"
  | PyInt z => PyDate.format_d 0 z
  | PyStr s => s
  | _ => py_repr v
  end.

(** [v.get(k, default)]: only a dict has the method. *)
Definition py_get (v : pyval) (k : string) (default : pyval)
  : result pyval :=
  match v with
  | PyDict d => Ok (dict_get_default d k default)
  | _ => Raise AttributeError
  end.

(** The body of the loop over [emails], on the database and the two
    counters. *)
Definition process_email (d : db) (found saved : Z) (em : email)
  : db * result (Z * Z) :=
  let classification :=
    classify_email (em_subject em) (em_sender em) (em_body em) in
  match
    (let* is_expense := py_get classification "is_expense" PyNone in
     if truthy is_expense then
       let* confidence := py_get classification "confidence" (PyInt 0) in
       py_ge confidence (7 # 10)
     else Ok false)
  with
  | Raise e => (d, Raise e)
  | Ok false => (d, Ok (found, saved))
  | Ok true =>
      let found := found + 1 in
      match
        (let* expense_data := py_get classification "expense_data" PyNone in
         if truthy expense_data then
           match expense_data with
           | PyDict data =>
               Ok (if truthy (dict_get data "amount") then Some data
                   else None)
           | _ => Raise AttributeError
           end
         else Ok None)
      with
      | Raise e => (d, Raise e)
      | Ok None => (d, Ok (found, saved))
      | Ok (Some expense_data) =>
          let expense_data :=
            dict_set "source" (PyStr "gmail") expense_data in
          let expense_data :=
            dict_set "email_id" (PyStr (em_id em)) expense_data in
          let notes :=
            strip (py_str (dict_get_default expense_data "notes" (PyStr ""))
                   ++ " [From: " ++ em_sender em ++ "]") in
          let expense_data := dict_set "notes" (PyStr notes) expense_data in
          match save_expense float_of_str text_of_real d expense_data with
          | Ok d' => (d', Ok (found, saved + 1))
          | Raise _ => (d, Ok (found, saved))
          end
      end
  end.

Fixpoint process_emails (d : db) (found saved : Z) (emails : list email)
  : db * result (Z * Z) :=
  match emails with
  | [] => (d, Ok (found, saved))
  | em :: rest =>
      match process_email d found saved em with
      | (d', Ok (found', saved')) => process_emails d' found' saved' rest
      | (d', Raise e) => (d', Raise e)
      end
  end.

(** [emails] is the answer of [fetch_new_emails]; [now] is
    [datetime.now(timezone.utc).isoformat()] at the end of the loop. *)
Definition pull_and_process_emails (d : db) (emails : list email)
  (now : string) : db * result sweep_stats :=
  match process_emails d 0 0 emails with
  | (d', Ok (found, saved)) =>
      (set_sync_state d' (Some now) None,
       Ok (mk_stats (Z.of_nat (List.length emails)) found saved))
  | (d', Raise e) => (d', Raise e)
  end.

End Agents.

(** * Properties *)

(** ** The calendar *)

(** The Gregorian rule, stated on its own: what the last day of a month is. *)
Definition gregorian_leap (y : Z) : bool :=
  if y mod 400 =? 0 then true
  else if y mod 100 =? 0 then false
  else y mod 4 =? 0.

Definition last_day (y m : Z) : Z :=
  if m =? 2 then (if gregorian_leap y then 29 else 28)
  else if (m =? 4) || (m =? 6) || (m =? 9) || (m =? 11) then 30
  else 31.

(** The first day of the month that follows month [m] of year [y]. *)
Definition next_month_first (y m : Z) : PyDate.date :=
  if m =? 12 then PyDate.mkdate (y + 1) 1 1 else PyDate.mkdate y (m + 1) 1.

(** What [iso_first_last_of_month] computes before it formats the dates. *)
Definition month_last (y m : Z) : result PyDate.date :=
  if m =? 12 then PyDate.new y 12 31
  else let* next := PyDate.new y (m + 1) 1 in PyDate.sub_days next 1.

(** The ordinal of the last day of a month goes back to that day. *)
Definition last_day_roundtrip (y m : Z) : bool :=
  let '(y', m', d') :=
    PyDate._ord2ymd (PyDate._ymd2ord y m (PyDate._days_in_month y m)) in
  (y' =? y) && (m' =? m) && (d' =? PyDate._days_in_month y m).

Definition months : list Z := [1; 2; 3; 4; 5; 6; 7; 8; 9; 10; 11; 12].

Definition cycle_years : list Z := map Z.of_nat (seq 1 400).

Ltac div_lia := Z.to_euclidean_division_equations; lia.

Ltac case_month m :=
  assert (m = 1 \/ m = 2 \/ m = 3 \/ m = 4 \/ m = 5 \/ m = 6 \/ m = 7
          \/ m = 8 \/ m = 9 \/ m = 10 \/ m = 11 \/ m = 12) as Hcase by lia;
  repeat (destruct Hcase as [Hcase | Hcase]; [subst m | ]); [ .. | subst m].

Lemma is_leap_gregorian y : PyDate._is_leap y = gregorian_leap y.
Proof.
  unfold PyDate._is_leap, gregorian_leap.
  destruct (y mod 400 =? 0) eqn:E400, (y mod 100 =? 0) eqn:E100,
    (y mod 4 =? 0) eqn:E4; try reflexivity; exfalso;
    rewrite ?Z.eqb_eq, ?Z.eqb_neq in *; div_lia.
Qed.

Lemma days_in_month_last_day y m :
  1 <= m <= 12 -> PyDate._days_in_month y m = last_day y m.
Proof.
  intros Hm. unfold PyDate._days_in_month, last_day.
  rewrite is_leap_gregorian.
  case_month m; simpl; destruct (gregorian_leap y); reflexivity.
Qed.

Lemma ymd2ord_prev y m :
  1 <= m < 12 ->
  PyDate._ymd2ord y (m + 1) 1 - 1
  = PyDate._ymd2ord y m (PyDate._days_in_month y m).
Proof.
  intros Hm.
  unfold PyDate._ymd2ord, PyDate._days_before_month, PyDate._days_in_month.
  case_month m; try lia; simpl; destruct (PyDate._is_leap y); simpl; lia.
Qed.

Lemma days_before_year_next y :
  PyDate._days_before_year (y + 1)
  = PyDate._days_before_year y + (if PyDate._is_leap y then 366 else 365).
Proof.
  unfold PyDate._days_before_year, PyDate._is_leap. cbv zeta.
  replace (y + 1 - 1) with y by lia.
  destruct (y mod 4 =? 0) eqn:E4, (y mod 100 =? 0) eqn:E100,
    (y mod 400 =? 0) eqn:E400; simpl;
    rewrite ?Z.eqb_eq, ?Z.eqb_neq in *; div_lia.
Qed.

Lemma days_before_year_shift y :
  PyDate._days_before_year (y + 400)
  = PyDate._days_before_year y + PyDate._DI400Y.
Proof.
  unfold PyDate._days_before_year, PyDate._DI400Y. cbv zeta. div_lia.
Qed.

Lemma is_leap_shift y : PyDate._is_leap (y + 400) = PyDate._is_leap y.
Proof.
  unfold PyDate._is_leap.
  replace ((y + 400) mod 4) with (y mod 4) by div_lia.
  replace ((y + 400) mod 100) with (y mod 100) by div_lia.
  replace ((y + 400) mod 400) with (y mod 400) by div_lia.
  reflexivity.
Qed.

Lemma ymd2ord_shift y m d :
  PyDate._ymd2ord (y + 400) m d = PyDate._ymd2ord y m d + PyDate._DI400Y.
Proof.
  unfold PyDate._ymd2ord, PyDate._days_before_month.
  rewrite days_before_year_shift, is_leap_shift. lia.
Qed.

Lemma ord2ymd_shift n :
  PyDate._ord2ymd (n + PyDate._DI400Y)
  = let '(y, m, d) := PyDate._ord2ymd n in (y + 400, m, d).
Proof.
  unfold PyDate._ord2ymd. cbv zeta.
  replace (n + PyDate._DI400Y - 1) with (n - 1 + 1 * PyDate._DI400Y) by lia.
  rewrite Z.div_add, Z.mod_add by (unfold PyDate._DI400Y; lia).
  set (r := (n - 1) mod PyDate._DI400Y).
  set (q := (n - 1) / PyDate._DI400Y).
  repeat match goal with
         | |- context [if ?b then _ else _] => destruct b
         end; f_equal; try f_equal; lia.
Qed.

Lemma days_in_month_shift y m :
  PyDate._days_in_month (y + 400) m = PyDate._days_in_month y m.
Proof. unfold PyDate._days_in_month. now rewrite is_leap_shift. Qed.

Lemma last_day_roundtrip_shift y m :
  last_day_roundtrip (y + 400) m = last_day_roundtrip y m.
Proof.
  unfold last_day_roundtrip.
  rewrite days_in_month_shift, ymd2ord_shift, ord2ymd_shift.
  destruct (PyDate._ord2ymd _) as [[y' m'] d'].
  f_equal. f_equal.
  destruct (Z.eqb_spec (y' + 400) (y + 400)), (Z.eqb_spec y' y);
    try reflexivity; lia.
Qed.

Lemma last_day_roundtrip_cycle :
  forallb (fun y => forallb (last_day_roundtrip y) months) cycle_years = true.
Proof. vm_compute. reflexivity. Qed.

Lemma in_months m : 1 <= m <= 12 -> In m months.
Proof. intros Hm. unfold months. simpl. lia. Qed.

Lemma in_cycle_years y : 1 <= y <= 400 -> In y cycle_years.
Proof.
  intros Hy. unfold cycle_years. apply in_map_iff.
  exists (Z.to_nat y). split.
  - apply Z2Nat.id. lia.
  - apply in_seq. lia.
Qed.

Lemma last_day_roundtrip_from k :
  forall y m, 1 <= y <= 400 -> 1 <= m <= 12 ->
  last_day_roundtrip (y + 400 * Z.of_nat k) m = true.
Proof.
  induction k as [|k IH]; intros y m Hy Hm.
  - replace (y + 400 * Z.of_nat 0) with y by lia.
    pose proof last_day_roundtrip_cycle as H.
    rewrite forallb_forall in H. specialize (H y (in_cycle_years y Hy)).
    rewrite forallb_forall in H. exact (H m (in_months m Hm)).
  - replace (y + 400 * Z.of_nat (S k)) with (y + 400 * Z.of_nat k + 400)
      by lia.
    rewrite last_day_roundtrip_shift. now apply IH.
Qed.

Lemma last_day_roundtrip_all y m :
  1 <= y -> 1 <= m <= 12 -> last_day_roundtrip y m = true.
Proof.
  intros Hy Hm.
  replace y with ((y - 1) mod 400 + 1 + 400 * Z.of_nat (Z.to_nat ((y - 1) / 400)))
    by (rewrite Z2Nat.id; div_lia).
  apply last_day_roundtrip_from; [div_lia | exact Hm].
Qed.

Lemma fromordinal_last_day y m :
  1 <= y -> 1 <= m <= 12 ->
  PyDate.fromordinal (PyDate._ymd2ord y m (PyDate._days_in_month y m))
  = PyDate.mkdate y m (PyDate._days_in_month y m).
Proof.
  intros Hy Hm. pose proof (last_day_roundtrip_all y m Hy Hm) as H.
  unfold last_day_roundtrip in H. unfold PyDate.fromordinal.
  destruct (PyDate._ord2ymd _) as [[y' m'] d'].
  rewrite !andb_true_iff, !Z.eqb_eq in H. destruct H as [[-> ->] ->].
  reflexivity.
Qed.

Lemma days_in_month_pos y m : 1 <= m <= 12 -> 28 <= PyDate._days_in_month y m.
Proof.
  intros Hm. unfold PyDate._days_in_month.
  case_month m; simpl; destruct (PyDate._is_leap y); simpl; lia.
Qed.

Lemma new_first y m :
  PyDate.MINYEAR <= y <= PyDate.MAXYEAR -> 1 <= m <= 12 ->
  PyDate.new y m 1 = Ok (PyDate.mkdate y m 1).
Proof.
  intros Hy Hm. pose proof (days_in_month_pos y m Hm).
  unfold PyDate.new, PyDate._check_date_fields.
  replace ((PyDate.MINYEAR <=? y) && (y <=? PyDate.MAXYEAR)) with true
    by (symmetry; apply andb_true_iff; split; apply Z.leb_le; lia).
  replace ((1 <=? m) && (m <=? 12)) with true
    by (symmetry; apply andb_true_iff; split; apply Z.leb_le; lia).
  replace ((1 <=? 1) && (1 <=? PyDate._days_in_month y m)) with true
    by (symmetry; apply andb_true_iff; split; apply Z.leb_le; lia).
  reflexivity.
Qed.

Lemma new_dec_31 y :
  PyDate.MINYEAR <= y <= PyDate.MAXYEAR ->
  PyDate.new y 12 31 = Ok (PyDate.mkdate y 12 31).
Proof.
  intros Hy. unfold PyDate.new, PyDate._check_date_fields.
  replace ((PyDate.MINYEAR <=? y) && (y <=? PyDate.MAXYEAR)) with true
    by (symmetry; apply andb_true_iff; split; apply Z.leb_le; lia).
  reflexivity.
Qed.

Lemma days_before_year_bounds y :
  PyDate.MINYEAR <= y <= PyDate.MAXYEAR ->
  0 <= PyDate._days_before_year y <= 3651696.
Proof.
  unfold PyDate.MINYEAR, PyDate.MAXYEAR, PyDate._days_before_year.
  cbv zeta. intros Hy. div_lia.
Qed.

Lemma sub_days_next_first y m :
  PyDate.MINYEAR <= y <= PyDate.MAXYEAR -> 1 <= m < 12 ->
  PyDate.sub_days (PyDate.mkdate y (m + 1) 1) 1
  = Ok (PyDate.mkdate y m (last_day y m)).
Proof.
  intros Hy Hm. unfold PyDate.sub_days, PyDate.toordinal. simpl.
  rewrite ymd2ord_prev by exact Hm.
  assert (1 <= y) as Hy1 by (unfold PyDate.MINYEAR in Hy; lia).
  rewrite fromordinal_last_day by lia.
  rewrite days_in_month_last_day by lia.
  rewrite <- (days_in_month_last_day y m) by lia.
  pose proof (days_before_year_bounds y Hy) as Hb.
  pose proof (days_in_month_pos y m ltac:(lia)) as Hd.
  assert (PyDate._days_in_month y m <= 31) as Hd'.
  { unfold PyDate._days_in_month.
    case_month m; try lia; simpl; destruct (PyDate._is_leap y); simpl; lia. }
  assert (0 <= PyDate._days_before_month y m <= 305) as Hm'.
  { unfold PyDate._days_before_month.
    case_month m; try lia; simpl; destruct (PyDate._is_leap y); simpl; lia. }
  replace ((0 <? PyDate._ymd2ord y m (PyDate._days_in_month y m))
           && (PyDate._ymd2ord y m (PyDate._days_in_month y m)
               <=? PyDate._MAXORDINAL)) with true.
  - reflexivity.
  - symmetry. apply andb_true_iff.
    unfold PyDate._ymd2ord, PyDate._MAXORDINAL.
    split; [apply Z.ltb_lt | apply Z.leb_le]; lia.
Qed.

Lemma month_last_correct y m :
  PyDate.MINYEAR <= y <= PyDate.MAXYEAR -> 1 <= m <= 12 ->
  month_last y m = Ok (PyDate.mkdate y m (last_day y m)).
Proof.
  intros Hy Hm. unfold month_last.
  destruct (Z.eqb_spec m 12) as [-> | Hne].
  - rewrite new_dec_31 by exact Hy. reflexivity.
  - rewrite new_first by lia. simpl. apply sub_days_next_first; lia.
Qed.

Lemma last_day_then_next_first y m :
  1 <= m <= 12 ->
  PyDate.toordinal (PyDate.mkdate y m (last_day y m)) + 1
  = PyDate.toordinal (next_month_first y m).
Proof.
  intros Hm. unfold next_month_first, PyDate.toordinal. simpl.
  rewrite <- days_in_month_last_day by exact Hm.
  destruct (Z.eqb_spec m 12) as [-> | Hne]; simpl.
  - unfold PyDate._ymd2ord. rewrite days_before_year_next.
    unfold PyDate._days_before_month, PyDate._days_in_month. simpl.
    destruct (PyDate._is_leap y); simpl; lia.
  - rewrite <- ymd2ord_prev by lia. lia.
Qed.

(** C3. For a year that [datetime.date] accepts and a month in 1..12,
    [iso_first_last_of_month] returns the ISO texts of the first day of the
    month and of its last calendar day: the day after the last day is the
    first day of the following month; for December the last day is the
    31st; for an earlier month it is the first day of month [m + 1] minus
    one day; for February it is the 29th in a leap year and the 28th
    otherwise. *)
Theorem iso_first_last_of_month_bounds (y m : Z) :
  PyDate.MINYEAR <= y <= PyDate.MAXYEAR -> 1 <= m <= 12 ->
  let first := PyDate.mkdate y m 1 in
  let last := PyDate.mkdate y m (last_day y m) in
  iso_first_last_of_month y m
  = Ok (PyDate.isoformat first, PyDate.isoformat last)
  /\ PyDate.toordinal last + 1 = PyDate.toordinal (next_month_first y m)
  /\ (m = 12 -> PyDate.day last = 31)
  /\ (m < 12 -> PyDate.sub_days (PyDate.mkdate y (m + 1) 1) 1 = Ok last)
  /\ (m = 2 -> PyDate.day last = if gregorian_leap y then 29 else 28).
Proof.
  intros Hy Hm first last. repeat split.
  - change (iso_first_last_of_month y m) with
      (let* first := PyDate.new y m 1 in
       let* last := month_last y m in
       Ok (PyDate.isoformat first, PyDate.isoformat last)).
    rewrite new_first by assumption. simpl.
    rewrite month_last_correct by assumption. reflexivity.
  - apply last_day_then_next_first; exact Hm.
  - intros ->. reflexivity.
  - intros Hlt. apply sub_days_next_first; [exact Hy | lia].
  - intros ->. reflexivity.
Qed.

Lemma iso_first_last_of_month_bounds_witness :
  iso_first_last_of_month 2024 2 = Ok ("2024-02-01", "2024-02-29").
Proof.
  refine (proj1 (iso_first_last_of_month_bounds 2024 2 _ _));
    unfold PyDate.MINYEAR, PyDate.MAXYEAR; lia.
Defined.

(** ** The sync cursor *)

(** C8. [set_sync_state] merges: a null argument leaves the stored field as
    it was, a non-null argument replaces it, and the other tables are not
    touched. *)
Theorem set_sync_state_merge (d : db) (timestamp history_id : option string) :
  let old := get_sync_state d in
  let new := get_sync_state (set_sync_state d timestamp history_id) in
  (timestamp = None -> last_sync_timestamp new = last_sync_timestamp old)
  /\ (history_id = None -> last_history_id new = last_history_id old)
  /\ (forall t, timestamp = Some t -> last_sync_timestamp new = Some t)
  /\ (forall h, history_id = Some h -> last_history_id new = Some h)
  /\ expenses (set_sync_state d timestamp history_id) = expenses d
  /\ budgets (set_sync_state d timestamp history_id) = budgets d.
Proof.
  unfold get_sync_state, set_sync_state; simpl.
  destruct (sync_state d) as [[t0 h0]|]; simpl;
    repeat split; try (intros; subst; reflexivity).
Qed.

Lemma set_sync_state_merge_witness :
  let d := set_sync_state init_db (Some "2025-11-03T10:00:00+00:00")
             (Some "41") in
  let new := get_sync_state (set_sync_state d None (Some "42")) in
  last_sync_timestamp new = Some "2025-11-03T10:00:00+00:00"
  /\ last_history_id new = Some "42".
Proof.
  intros d new.
  destruct (set_sync_state_merge d None (Some "42"))
    as (Hts & _ & _ & Hhid & _).
  split.
  - exact (Hts eq_refl).
  - exact (Hhid "42" eq_refl).
Defined.

(** ** Recording an expense *)

Section SaveExpense.

Variable float_of_str : string -> option Q.
Variable text_of_real : Q -> string.

#[local] Abbreviation save := (save_expense float_of_str text_of_real).

(** The row that [save_expense] inserts when nothing raises. *)
Lemma save_expense_ok_inv d exp d' :
  save d exp = Ok d' ->
  exists amount date vendor currency category source notes email_id,
    py_float float_of_str (py_or (dict_get exp "amount") (PyInt 0))
    = Ok amount
    /\ bind_text text_of_real (dict_get exp "date") = Ok date
    /\ bind_text text_of_real (dict_get exp "vendor") = Ok vendor
    /\ bind_text text_of_real (dict_get exp "currency") = Ok currency
    /\ bind_text text_of_real (dict_get exp "category") = Ok category
    /\ bind_text text_of_real (dict_get exp "source") = Ok source
    /\ bind_text text_of_real (dict_get exp "notes") = Ok notes
    /\ bind_text text_of_real (dict_get exp "email_id") = Ok email_id
    /\ email_id_taken (expenses d) email_id = false
    /\ d' = mk_db
              (expenses d ++
               [mk_expense (expenses_seq d + 1) date vendor amount currency
                  category source notes email_id])
              (expenses_seq d + 1) (budgets d) (budgets_seq d)
              (sync_state d).
Proof.
  unfold save_expense. intros H.
  destruct (py_float _ _) as [amount|] eqn:Ea; [|discriminate].
  destruct (bind_text _ (dict_get exp "date")) as [date|] eqn:E1;
    [|discriminate].
  destruct (bind_text _ (dict_get exp "vendor")) as [vendor|] eqn:E2;
    [|discriminate].
  destruct (bind_text _ (dict_get exp "currency")) as [currency|] eqn:E3;
    [|discriminate].
  destruct (bind_text _ (dict_get exp "category")) as [category|] eqn:E4;
    [|discriminate].
  destruct (bind_text _ (dict_get exp "source")) as [source|] eqn:E5;
    [|discriminate].
  destruct (bind_text _ (dict_get exp "notes")) as [notes|] eqn:E6;
    [|discriminate].
  destruct (bind_text _ (dict_get exp "email_id")) as [email_id|] eqn:E7;
    [|discriminate].
  simpl in H.
  destruct (email_id_taken _ _) eqn:Et; [discriminate|].
  injection H as <-.
  exists amount, date, vendor, currency, category, source, notes, email_id.
  repeat split; auto.
Qed.

Lemma py_float_falsy v :
  truthy v = false ->
  py_float float_of_str (py_or v (PyInt 0)) = Ok 0%Q.
Proof. intros Hv. unfold py_or. rewrite Hv. reflexivity. Qed.

Lemma bind_text_raise v e :
  bind_text text_of_real v = Raise e -> e = ProgrammingError.
Proof. destruct v; simpl; intros H; try discriminate; now injection H. Qed.

Lemma save_expense_falsy_raise d exp e :
  truthy (dict_get exp "amount") = false ->
  save d exp = Raise e -> e = ProgrammingError \/ e = IntegrityError.
Proof.
  intros Hv. unfold save_expense. rewrite (py_float_falsy _ Hv). simpl.
  repeat match goal with
         | |- context [bind_text text_of_real ?v] =>
             let E := fresh "E" in
             destruct (bind_text text_of_real v) eqn:E; simpl;
             [ | intros H; injection H as <-; left;
                 exact (bind_text_raise _ _ E) ]
         end.
  destruct (email_id_taken _ _); intros H; [|discriminate].
  injection H as <-. now right.
Qed.

(** C10. An expense whose [amount] is absent, null or zero-like is not
    refused for that: [save_expense] never raises ValueError or TypeError
    on it, and when its other fields can be bound and its [email_id] is not
    taken, the row is inserted with amount 0. *)
Theorem save_expense_missing_amount (d : db) (exp : pydict) :
  truthy (dict_get exp "amount") = false ->
  save d exp <> Raise ValueError
  /\ save d exp <> Raise TypeError
  /\ (forall date vendor currency category source notes email_id,
        bind_text text_of_real (dict_get exp "date") = Ok date ->
        bind_text text_of_real (dict_get exp "vendor") = Ok vendor ->
        bind_text text_of_real (dict_get exp "currency") = Ok currency ->
        bind_text text_of_real (dict_get exp "category") = Ok category ->
        bind_text text_of_real (dict_get exp "source") = Ok source ->
        bind_text text_of_real (dict_get exp "notes") = Ok notes ->
        bind_text text_of_real (dict_get exp "email_id") = Ok email_id ->
        email_id_taken (expenses d) email_id = false ->
        save d exp
        = Ok (mk_db
                (expenses d ++
                 [mk_expense (expenses_seq d + 1) date vendor 0%Q currency
                    category source notes email_id])
                (expenses_seq d + 1) (budgets d) (budgets_seq d)
                (sync_state d))).
Proof.
  intros Hv. repeat split.
  - intros H. destruct (save_expense_falsy_raise d exp _ Hv H); discriminate.
  - intros H. destruct (save_expense_falsy_raise d exp _ Hv H); discriminate.
  - intros date vendor currency category source notes email_id
      E1 E2 E3 E4 E5 E6 E7 Et.
    unfold save_expense. rewrite (py_float_falsy _ Hv). simpl.
    rewrite E1, E2, E3, E4, E5, E6, E7. simpl. rewrite Et. reflexivity.
Qed.

End SaveExpense.

Example falsy_amounts :
  map (fun exp => truthy (dict_get exp "amount"))
    [ [("vendor", PyStr "Cafe")];
      [("amount", PyNone)];
      [("amount", PyInt 0)];
      [("amount", PyFloat 0)];
      [("amount", PyBool false)];
      [("amount", PyStr "")];
      [("amount", PyList [])] ]
  = [false; false; false; false; false; false; false].
Proof. reflexivity. Qed.

Lemma save_expense_missing_amount_witness :
  let exp := [("vendor", PyStr "Cafe"); ("amount", PyNone);
              ("date", PyStr "2025-11-03")] in
  save_expense (fun _ => None) (fun _ => "") init_db exp
  = Ok (mk_db
          [mk_expense 1 (Some "2025-11-03") (Some "Cafe") 0%Q None None None
             None None]
          1 [] 0 None).
Proof.
  intros exp.
  apply (save_expense_missing_amount (fun _ => None) (fun _ => "") init_db
           exp eq_refl);
    reflexivity.
Defined.

(** ** The uniqueness of [email_id] *)

Definition has_email_id (k : string) (r : expense_row) : bool :=
  opt_string_eqb (e_email_id r) (Some k).

Definition count_email_id (k : string) (rows : list expense_row) : nat :=
  List.length (filter (has_email_id k) rows).

Section Reachable.

Variable float_of_str : string -> option Q.
Variable text_of_real : Q -> string.

#[local] Abbreviation save := (save_expense float_of_str text_of_real).

(** The database states that the writers of [db.py] can produce. *)
Inductive reachable : db -> Prop :=
| reach_init : reachable init_db
| reach_save_expense d exp d' :
    reachable d -> save d exp = Ok d' -> reachable d'
| reach_set_budget d category amount period :
    reachable d -> reachable (set_budget d category amount period)
| reach_assign_category d expense_id category :
    reachable d ->
    reachable (assign_category_to_expense d expense_id category)
| reach_set_sync_state d timestamp history_id :
    reachable d -> reachable (set_sync_state d timestamp history_id).

Lemma email_id_taken_count rows k :
  email_id_taken rows (Some k) = false <-> count_email_id k rows = 0%nat.
Proof.
  unfold count_email_id, email_id_taken. fold (has_email_id k).
  induction rows as [|r rows IH]; simpl.
  - tauto.
  - destruct (has_email_id k r); simpl.
    + split; discriminate.
    + exact IH.
Qed.

Lemma count_email_id_app k rows rows' :
  count_email_id k (rows ++ rows')
  = (count_email_id k rows + count_email_id k rows')%nat.
Proof.
  unfold count_email_id. rewrite filter_app. apply List.length_app.
Qed.

Lemma save_expense_count d exp d' k :
  save d exp = Ok d' ->
  exists email_id,
    bind_text text_of_real (dict_get exp "email_id") = Ok email_id
    /\ email_id_taken (expenses d) email_id = false
    /\ count_email_id k (expenses d')
       = (count_email_id k (expenses d)
          + if opt_string_eqb email_id (Some k) then 1 else 0)%nat.
Proof.
  intros H. apply save_expense_ok_inv in H.
  destruct H as (amount & date & vendor & currency & category & source
                 & notes & email_id & _ & _ & _ & _ & _ & _ & _ & E & Et
                 & ->).
  exists email_id. split; [exact E|]. split; [exact Et|].
  cbn [expenses]. rewrite count_email_id_app. f_equal.
  unfold count_email_id, has_email_id. cbn [filter e_email_id].
  destruct (opt_string_eqb email_id (Some k)); reflexivity.
Qed.

Lemma opt_string_eqb_eq a b : opt_string_eqb a b = true <-> a = b.
Proof.
  destruct a as [x|], b as [y|]; simpl; try (split; congruence).
  rewrite String.eqb_eq. split; congruence.
Qed.

Lemma assign_category_count d expense_id category k :
  count_email_id k (expenses (assign_category_to_expense d expense_id category))
  = count_email_id k (expenses d).
Proof.
  unfold assign_category_to_expense, count_email_id. simpl.
  induction (expenses d) as [|r rows IH]; simpl; [reflexivity|].
  replace (has_email_id k
             (if e_id r =? expense_id
              then mk_expense (e_id r) (e_date r) (e_vendor r) (e_amount r)
                     (e_currency r) (Some category) (e_source r) (e_notes r)
                     (e_email_id r)
              else r))
    with (has_email_id k r) by (destruct (e_id r =? expense_id); reflexivity).
  destruct (has_email_id k r); simpl; now rewrite IH.
Qed.

Lemma set_budget_expenses d category amount period :
  expenses (set_budget d category amount period) = expenses d.
Proof.
  unfold set_budget. destruct (upsert_budget _ _ _ _ _). reflexivity.
Qed.

Lemma reachable_unique d :
  reachable d -> forall k, (count_email_id k (expenses d) <= 1)%nat.
Proof.
  induction 1 as [|d exp d' _ IH Hs| d c a p _ IH | d i c _ IH | d t h _ IH];
    intros k.
  - simpl. unfold count_email_id. simpl. lia.
  - destruct (save_expense_count d exp d' k Hs) as (email_id & _ & Et & ->).
    specialize (IH k).
    destruct (opt_string_eqb email_id (Some k)) eqn:E; [|lia].
    apply opt_string_eqb_eq in E. subst email_id.
    apply email_id_taken_count in Et. lia.
  - rewrite set_budget_expenses. apply IH.
  - rewrite assign_category_count. apply IH.
  - apply IH.
Qed.

(** C1. When two expenses carry the same non-null [email_id] and the first
    is recorded, exactly one row has that id; recording the second one
    raises and inserts nothing, and the exception is IntegrityError as soon
    as the second expense is otherwise acceptable. No state that the
    writers of [db.py] can reach holds two rows with the same non-null id. *)
Theorem save_expense_unique_email_id (d d1 : db) (exp1 exp2 : pydict)
  (k : string) :
  bind_text text_of_real (dict_get exp1 "email_id") = Ok (Some k) ->
  bind_text text_of_real (dict_get exp2 "email_id") = Ok (Some k) ->
  save d exp1 = Ok d1 ->
  count_email_id k (expenses d1) = 1%nat
  /\ (exists e, save d1 exp2 = Raise e)
  /\ (forall d2, save d exp2 = Ok d2 -> save d1 exp2 = Raise IntegrityError)
  /\ (forall d0, reachable d0 ->
      forall k', (count_email_id k' (expenses d0) <= 1)%nat).
Proof.
  intros E1 E2 Hs.
  destruct (save_expense_count d exp1 d1 k Hs) as (email_id & E & Et & Hc).
  rewrite E1 in E. injection E as <-.
  apply email_id_taken_count in Et.
  assert (count_email_id k (expenses d1) = 1%nat) as Hone.
  { rewrite Hc, Et. simpl. now rewrite String.eqb_refl. }
  assert (email_id_taken (expenses d1) (Some k) = true) as Htaken.
  { destruct (email_id_taken (expenses d1) (Some k)) eqn:Ht; [reflexivity|].
    apply email_id_taken_count in Ht. lia. }
  repeat split.
  - exact Hone.
  - unfold save_expense. rewrite E2.
    repeat match goal with
           | |- context [bind ?r _] =>
               destruct r; cbn [bind]; [ | eexists; reflexivity ]
           end.
    rewrite Htaken. eexists; reflexivity.
  - intros d2 H2. apply save_expense_ok_inv in H2.
    destruct H2 as (amount & date & vendor & currency & category & source
                    & notes & email_id & Ea & F1 & F2 & F3 & F4 & F5 & F6
                    & F7 & _).
    unfold save_expense. rewrite Ea, F1, F2, F3, F4, F5, F6, F7. simpl.
    rewrite E2 in F7. injection F7 as <-. now rewrite Htaken.
  - intros d0 Hr. now apply reachable_unique.
Qed.

End Reachable.

Lemma save_expense_unique_email_id_witness :
  let exp1 := [("amount", PyFloat 5); ("email_id", PyStr "m1")] in
  let exp2 := [("amount", PyFloat 7); ("vendor", PyStr "Cafe");
               ("email_id", PyStr "m1")] in
  let d1 := mk_db [mk_expense 1 None None 5%Q None None None None (Some "m1")]
              1 [] 0 None in
  count_email_id "m1" (expenses d1) = 1%nat
  /\ save_expense (fun _ => None) (fun _ => "") d1 exp2
     = Raise IntegrityError.
Proof.
  intros exp1 exp2 d1.
  destruct (save_expense_unique_email_id (fun _ => None) (fun _ => "")
              init_db d1 exp1 exp2 "m1" eq_refl eq_refl eq_refl)
    as (Hone & _ & Hint & _).
  split.
  - exact Hone.
  - exact (Hint _ eq_refl).
Defined.

(** ** Sums over a date range *)

(** The expenses that [date BETWEEN ? AND ?] selects. *)
Definition in_range (d : db) (start_date end_date : string)
  : list expense_row :=
  filter (fun r => between start_date end_date (e_date r)) (expenses d).

Lemma fold_left_Qplus_acc l a :
  (fold_left Qplus l a == a + fold_left Qplus l 0)%Q.
Proof.
  revert a. induction l as [|x l IH]; intros a; simpl.
  - ring.
  - rewrite (IH (a + x)%Q), (IH (0 + x)%Q). ring.
Qed.

Lemma py_sum_cons x l : (py_sum (x :: l) == x + py_sum l)%Q.
Proof.
  unfold py_sum. simpl. rewrite fold_left_Qplus_acc. ring.
Qed.

Lemma py_sum_app l l' : (py_sum (l ++ l') == py_sum l + py_sum l')%Q.
Proof.
  induction l as [|x l IH]; simpl.
  - unfold py_sum at 2. simpl. ring.
  - rewrite !py_sum_cons, IH. ring.
Qed.


Lemma insert_sorted_perm {A} (le : A -> A -> bool) x l :
  Permutation (insert_sorted le x l) (x :: l).
Proof.
  induction l as [|y l IH]; simpl.
  - reflexivity.
  - destruct (le x y).
    + reflexivity.
    + rewrite IH. apply perm_swap.
Qed.

Lemma order_by_perm {A} (le : A -> A -> bool) l :
  Permutation (order_by le l) l.
Proof.
  induction l as [|x l IH]; simpl.
  - reflexivity.
  - unfold order_by in *. simpl. rewrite insert_sorted_perm. now constructor.
Qed.





Lemma total_spent_sum d start_date end_date :
  (total_spent d start_date end_date
   == py_sum (map e_amount (in_range d start_date end_date)))%Q.
Proof.
  unfold total_spent. fold (in_range d start_date end_date).
  destruct (map e_amount (in_range d start_date end_date)) as [|x l].
  - reflexivity.
  - change (sql_sum (x :: l)) with (Some (py_sum (x :: l))).
    cbv beta iota. unfold Qnonzero.
    destruct (Qeq_bool (py_sum (x :: l)) 0) eqn:E; cbn [negb].
    + apply Qeq_bool_eq in E. now rewrite E.
    + reflexivity.
Qed.



(** A store with four expenses of November 2025 and one of October. *)
Definition november_db : db :=
  mk_db
    [ mk_expense 1 (Some "2025-11-03") (Some "Chipotle") 15 None (Some "Food")
        (Some "chat") None None;
      mk_expense 2 (Some "2025-11-01") (Some "Metro") (5 # 2) None
        (Some "Transport") (Some "chat") None None;
      mk_expense 3 (Some "2025-10-30") (Some "Chipotle") 9 None (Some "Food")
        (Some "chat") None None;
      mk_expense 4 (Some "2025-11-20") None 30 None None (Some "gmail") None
        (Some "m1");
      mk_expense 5 (Some "2025-11-07") (Some "Deli") 20 None (Some "food")
        (Some "chat") None None ]
    5 [] 0 None.

Example aggregate_november :
  aggregate_by_field november_db "2025-11-01" "2025-11-30" "category"
  = [ mk_agg "Uncategorized" 30 1; mk_agg "food" 20 1; mk_agg "Food" 15 1;
      mk_agg "Transport" (5 # 2) 1 ].
Proof. reflexivity. Qed.

Example aggregate_november_other_field :
  aggregate_by_field november_db "2025-11-01" "2025-11-30" "amount"
  = aggregate_by_field november_db "2025-11-01" "2025-11-30" "category".
Proof. reflexivity. Qed.

Example total_november :
  (total_spent november_db "2025-11-01" "2025-11-30" == 135 # 2)%Q.
Proof. reflexivity. Qed.

Example expenses_november :
  map e_id (get_expenses_between november_db "2025-11-01" "2025-11-30")
  = [2; 1; 5; 4].
Proof. reflexivity. Qed.

(** ** The sweep over new e-mails *)

(** What the sweep reads in a classification: whether it is a confident
    expense, whether its expense data carry an amount, and whether reading
    it raises. *)
Definition confident (cls : pyval) : bool :=
  match cls with
  | PyDict c =>
      truthy (dict_get c "is_expense")
      && match py_ge (dict_get_default c "confidence" (PyInt 0)) (7 # 10) with
         | Ok b => b
         | Raise _ => false
         end
  | _ => false
  end.

Definition has_amount (cls : pyval) : bool :=
  match cls with
  | PyDict c =>
      match dict_get c "expense_data" with
      | PyDict data => truthy (dict_get data "amount")
      | _ => false
      end
  | _ => false
  end.

Definition well_formed (cls : pyval) : bool :=
  match cls with
  | PyDict c =>
      if truthy (dict_get c "is_expense") then
        match py_ge (dict_get_default c "confidence" (PyInt 0)) (7 # 10) with
        | Raise _ => false
        | Ok false => true
        | Ok true =>
            match dict_get c "expense_data" with
            | PyDict _ => true
            | v => negb (truthy v)
            end
        end
      else true
  | _ => false
  end.

Lemma dict_lookup_set_same {V} k (v : V) d :
  dict_lookup k (dict_set k v d) = Some v.
Proof.
  induction d as [|[k' v'] d IH]; simpl.
  - now rewrite String.eqb_refl.
  - destruct (String.eqb k k') eqn:E; simpl; rewrite E; auto.
Qed.

Lemma dict_lookup_set_other {V} k k' (v : V) d :
  k <> k' -> dict_lookup k (dict_set k' v d) = dict_lookup k d.
Proof.
  intros Hne. induction d as [|[k'' v''] d IH]; simpl.
  - apply String.eqb_neq in Hne. now rewrite Hne.
  - destruct (String.eqb k' k'') eqn:E; simpl.
    + apply String.eqb_eq in E. subst k''.
      apply String.eqb_neq in Hne. now rewrite Hne.
    + now rewrite IH.
Qed.

Section Sweep.

Variable float_of_str : string -> option Q.
Variable text_of_real : Q -> string.
Variable classify_email : string -> string -> string -> pyval.
Variable py_repr : pyval -> string.

#[local] Abbreviation save := (save_expense float_of_str text_of_real).
#[local] Abbreviation classification em :=
  (classify_email (em_subject em) (em_sender em) (em_body em)).
#[local] Abbreviation step :=
  (process_email float_of_str text_of_real classify_email py_repr).
#[local] Abbreviation steps :=
  (process_emails float_of_str text_of_real classify_email py_repr).
#[local] Abbreviation sweep :=
  (pull_and_process_emails float_of_str text_of_real classify_email py_repr).

(** One turn of the loop, case by case. *)
Lemma process_email_spec d found saved em :
  match step d found saved em with
  | (d', Ok (found', saved')) =>
      well_formed (classification em) = true
      /\ found' = found + (if confident (classification em) then 1 else 0)
      /\ ((saved' = saved /\ d' = d)
          \/ (saved' = saved + 1
              /\ confident (classification em) = true
              /\ has_amount (classification em) = true
              /\ sync_state d' = sync_state d
              /\ exists r,
                  expenses d' = (expenses d ++ [r])%list
                  /\ e_email_id r = Some (em_id em)))
  | (d', Raise e) => d' = d /\ well_formed (classification em) = false
  end.
Proof.
  unfold process_email.
  destruct (classification em) as [| b | z | q | s | l | c];
    try (cbn; split; reflexivity).
  cbn [py_get bind confident well_formed has_amount].
  change (dict_get_default c "is_expense" PyNone)
    with (dict_get c "is_expense").
  change (dict_get_default c "expense_data" PyNone)
    with (dict_get c "expense_data").
  destruct (truthy (dict_get c "is_expense")) eqn:Eis; cbn [andb].
  2:{ repeat split; auto. lia. }
  destruct (py_ge (dict_get_default c "confidence" (PyInt 0)) (7 # 10))
    as [[|]|e] eqn:Ege.
  3:{ split; reflexivity. }
  2:{ repeat split; auto. lia. }
  destruct (dict_get c "expense_data") as [| b | z | q | s | l | data] eqn:Eed;
    cbn [truthy bind negb].
  - repeat split; auto.
  - destruct b; cbn; repeat split; auto.
  - destruct (z =? 0); cbn; repeat split; auto.
  - destruct (Qnonzero q); cbn; repeat split; auto.
  - destruct (String.eqb s ""); cbn; repeat split; auto.
  - destruct l; cbn; repeat split; auto.
  - destruct data as [|kv data'] eqn:Edata.
    { cbn. repeat split; auto. }
    rewrite <- Edata. clear Edata.
    destruct (truthy (dict_get data "amount")) eqn:Eam.
    2:{ repeat split; auto. }
    match goal with
    | |- context [save d ?exp] =>
        destruct (save d exp) as [d'|e] eqn:Es;
        [ apply save_expense_ok_inv in Es | repeat split; auto ]
    end.
    destruct Es as (amount & date & vendor & currency & category & source
                    & notes & email_id & _ & _ & _ & _ & _ & _ & _ & E & _
                    & ->).
    repeat split. right. repeat split.
    eexists. split; [reflexivity|]. cbn [e_email_id].
    unfold dict_get in E.
    rewrite dict_lookup_set_other, dict_lookup_set_same in E
      by discriminate.
    cbn in E. now injection E as <-.
Qed.

Definition is_confident (em : email) : bool := confident (classification em).

Definition is_recordable (em : email) : bool :=
  confident (classification em) && has_amount (classification em).

(** The loop, by induction on the batch. *)
Lemma process_emails_spec emails :
  forall d found saved d' r,
  steps d found saved emails = (d', r) ->
  sync_state d' = sync_state d
  /\ match r with
     | Ok (found', saved') =>
         found' = found + Z.of_nat (List.length (filter is_confident emails))
         /\ saved' - saved
            = Z.of_nat (List.length (expenses d'))
              - Z.of_nat (List.length (expenses d))
         /\ saved <= saved'
            <= saved + Z.of_nat (List.length (filter is_recordable emails))
         /\ (forall row, In row (expenses d') ->
             In row (expenses d)
             \/ exists em, In em emails /\ is_recordable em = true
                           /\ e_email_id row = Some (em_id em))
         /\ (forall em, In em emails ->
             well_formed (classification em) = true)
     | Raise _ =>
         exists em, In em emails /\ well_formed (classification em) = false
     end.
Proof.
  induction emails as [|em rest IH]; intros d found saved d' r H.
  - cbn in H. injection H as <- <-. cbn.
    repeat split; auto; try lia; try (intros em []).
  - cbn [process_emails] in H.
    pose proof (process_email_spec d found saved em) as Hs.
    destruct (step d found saved em) as [d1 [[f1 s1]|e]].
    + destruct Hs as (Hwf & Hf & Hcase).
      specialize (IH d1 f1 s1 d' r H). destruct IH as (Hsync & IH).
      assert (sync_state d1 = sync_state d) as Hsync1
        by (destruct Hcase as [[_ ->]|(_ & _ & _ & Hx & _)]; auto).
      split; [congruence|].
      destruct r as [[f' s']|e].
      * destruct IH as (Hf' & Hs' & Hle & Hrows & Hall).
        cbn [filter]. unfold is_confident at 1, is_recordable at 1.
        destruct Hcase as [[-> ->]|(-> & Hc & Ha & _ & row & Hrow & Hid)].
        -- repeat split; try lia.
           ++ destruct (confident (classification em)); cbn [List.length]; lia.
           ++ destruct (confident (classification em) && has_amount _);
                cbn [List.length]; lia.
           ++ intros row Hin. destruct (Hrows row Hin) as [|(em' & ? & ?)];
                [now left | right; exists em'; cbn; auto].
           ++ intros em' [<-|Hin]; auto.
        -- rewrite Hc, Ha in *. cbn [andb List.length].
           rewrite Hrow, List.length_app in Hs'. cbn [List.length] in Hs'.
           repeat split; try lia.
           ++ intros row' Hin. destruct (Hrows row' Hin) as [Hold|(em' & ? & ?)].
              ** rewrite Hrow in Hold. apply in_app_or in Hold.
                 destruct Hold as [|[<-|[]]]; [now left|].
                 right. exists em. cbn. repeat split; auto.
                 unfold is_recordable. now rewrite Hc, Ha.
              ** right; exists em'; cbn; auto.
           ++ intros em' [<-|Hin]; auto.
      * destruct IH as (em' & Hin & Hbad). exists em'. cbn. auto.
    + injection H as <- <-. destruct Hs as (-> & Hbad).
      split; [reflexivity|]. exists em. cbn. auto.
Qed.

(** C4, as the code has it. A sweep that returns counts every e-mail of the
    batch in [emails_checked] and every e-mail that the classifier marks as
    an expense with confidence at least 0.7 in [expenses_found], whether or
    not an amount is present; [expenses_saved] is the number of rows that
    the sweep inserted, at most the number of confident e-mails whose
    expense data carry an amount; and every inserted row carries the id of
    such an e-mail. *)
Theorem sweep_counts (d d' : db) (emails : list email) (now : string)
  (stats : sweep_stats) :
  sweep d emails now = (d', Ok stats) ->
  emails_checked stats = Z.of_nat (List.length emails)
  /\ expenses_found stats
     = Z.of_nat (List.length (filter is_confident emails))
  /\ expenses_saved stats
     = Z.of_nat (List.length (expenses d'))
       - Z.of_nat (List.length (expenses d))
  /\ 0 <= expenses_saved stats
     <= Z.of_nat (List.length (filter is_recordable emails))
  /\ (forall row, In row (expenses d') ->
      In row (expenses d)
      \/ exists em, In em emails /\ is_recordable em = true
                    /\ e_email_id row = Some (em_id em)).
Proof.
  unfold pull_and_process_emails. intros H.
  destruct (steps d 0 0 emails) as [d1 [[found saved]|e]] eqn:E;
    [|discriminate].
  injection H as <- <-.
  apply process_emails_spec in E.
  destruct E as (_ & Hf & Hs & Hle & Hrows & _).
  cbn [emails_checked expenses_found expenses_saved expenses set_sync_state].
  repeat split; try lia. exact Hrows.
Qed.

(** C5, as the code has it. The cursor is written after the loop: a sweep
    that returns has set the timestamp to the current time and kept the
    history id; a sweep that raises leaves the cursor as it was. What
    [save_expense] raises is caught inside the loop, so the sweep returns
    whenever every classification can be read, and it raises only on a
    classification that cannot. *)
Theorem sweep_cursor (d : db) (emails : list email) (now : string) :
  match sweep d emails now with
  | (d', Ok _) =>
      get_sync_state d'
      = mk_sync (Some now) (last_history_id (get_sync_state d))
  | (d', Raise _) => sync_state d' = sync_state d
  end
  /\ ((forall em, In em emails -> well_formed (classification em) = true) ->
      exists d' stats, sweep d emails now = (d', Ok stats))
  /\ (forall d' e, sweep d emails now = (d', Raise e) ->
      exists em, In em emails /\ well_formed (classification em) = false).
Proof.
  unfold pull_and_process_emails.
  destruct (steps d 0 0 emails) as [d1 [[found saved]|e]] eqn:E;
    apply process_emails_spec in E; destruct E as (Hsync & E).
  - repeat split.
    + unfold get_sync_state, set_sync_state. cbn [sync_state].
      rewrite Hsync. destruct (sync_state d) as [[t h]|]; reflexivity.
    + intros _. eexists. eexists. reflexivity.
    + intros d' e H. discriminate.
  - repeat split.
    + exact Hsync.
    + intros Hall. destruct E as (em & Hin & Hbad).
      rewrite (Hall em Hin) in Hbad. discriminate.
    + intros d' e' H. exact E.
Qed.

End Sweep.

(** Three answers of the classifier, for a receipt with its amount, for an
    expense without amount, and for an expense whose category is a list. *)
Definition classify_receipt (subject sender body : string) : pyval :=
  PyDict
    [ ("is_expense", PyBool true); ("confidence", PyFloat (95 # 100));
      ("reason", PyStr "receipt");
      ("expense_data",
        PyDict
          [ ("date", PyStr "2025-11-03"); ("vendor", PyStr "Acme");
            ("amount", PyFloat 12); ("currency", PyStr "USD");
            ("category", PyStr "Food"); ("notes", PyStr "lunch") ]) ].

Definition classify_no_amount (subject sender body : string) : pyval :=
  PyDict
    [ ("is_expense", PyBool true); ("confidence", PyFloat (9 # 10));
      ("reason", PyStr "order confirmation");
      ("expense_data",
        PyDict [ ("vendor", PyStr "Acme"); ("amount", PyNone) ]) ].

Definition classify_list_category (subject sender body : string) : pyval :=
  PyDict
    [ ("is_expense", PyBool true); ("confidence", PyFloat (9 # 10));
      ("reason", PyStr "receipt");
      ("expense_data",
        PyDict
          [ ("date", PyStr "2025-11-03"); ("vendor", PyStr "Acme");
            ("amount", PyFloat 12);
            ("category", PyList [PyStr "Food"; PyStr "Shopping"]);
            ("notes", PyStr "lunch") ]) ].

Definition an_email : email :=
  mk_email "m1" "Your receipt" "shop@example.com" "Total: 12.00"
    "Mon, 3 Nov 2025 10:00:00 +0000".

Definition no_float (s : string) : option Q := None.
Definition no_text (q : Q) : string := "".
Definition no_repr (v : pyval) : string := "".

Example sweep_receipt :
  pull_and_process_emails no_float no_text classify_receipt no_repr init_db
    [an_email] "2025-11-04T09:00:00+00:00"
  = (mk_db
       [ mk_expense 1 (Some "2025-11-03") (Some "Acme") 12 (Some "USD")
           (Some "Food") (Some "gmail")
           (Some "lunch [From: shop@example.com]") (Some "m1") ]
       1 [] 0 (Some (mk_sync (Some "2025-11-04T09:00:00+00:00") None)),
     Ok (mk_stats 1 1 1)).
Proof. reflexivity. Qed.

Example sweep_list_category :
  save_expense no_float no_text init_db
    [ ("date", PyStr "2025-11-03"); ("vendor", PyStr "Acme");
      ("amount", PyFloat 12);
      ("category", PyList [PyStr "Food"; PyStr "Shopping"]);
      ("notes", PyStr "lunch [From: shop@example.com]");
      ("source", PyStr "gmail"); ("email_id", PyStr "m1") ]
  = Raise ProgrammingError
  /\ pull_and_process_emails no_float no_text classify_list_category no_repr
       init_db [an_email] "2025-11-04T09:00:00+00:00"
     = (mk_db [] 0 [] 0
          (Some (mk_sync (Some "2025-11-04T09:00:00+00:00") None)),
        Ok (mk_stats 1 1 0)).
Proof. split; reflexivity. Qed.

(** C4 as stated fails: an e-mail classified with confidence 0.9 and no
    amount is counted in [expenses_found]. *)
Lemma sweep_found_without_amount :
  ~ (forall (classify : string -> string -> string -> pyval) (em : email)
       (d d' : db) (now : string) (stats : sweep_stats),
       pull_and_process_emails no_float no_text classify no_repr d [em] now
       = (d', Ok stats) ->
       is_recordable classify em = false ->
       expenses_found stats = 0 /\ expenses_saved stats = 0).
Proof.
  intros H.
  destruct (H classify_no_amount an_email init_db _ "2025-11-04" _ eq_refl
              eq_refl) as [Hfound _].
  discriminate Hfound.
Qed.

Lemma sweep_counts_witness :
  let d' :=
    fst (pull_and_process_emails no_float no_text classify_no_amount no_repr
           init_db [an_email] "2025-11-04") in
  expenses_found (mk_stats 1 1 0) = 1 /\ expenses d' = [].
Proof.
  intros d'.
  destruct (sweep_counts no_float no_text classify_no_amount no_repr init_db
              d' [an_email] "2025-11-04" (mk_stats 1 1 0) eq_refl)
    as (_ & Hfound & _).
  split; [exact Hfound | reflexivity].
Defined.

(** C5 as stated fails: the write for a confident e-mail with an amount
    raises, no row is inserted, and the sweep still returns and moves the
    cursor. *)
Lemma sweep_swallows_write_failure :
  ~ (forall (classify : string -> string -> string -> pyval) (em : email)
       (d d' : db) (now : string) (r : result sweep_stats),
       pull_and_process_emails no_float no_text classify no_repr d [em] now
       = (d', r) ->
       is_recordable classify em = true ->
       expenses d' = expenses d ->
       (exists e, r = Raise e) /\ sync_state d' = sync_state d).
Proof.
  intros H.
  destruct (H classify_list_category an_email init_db _ "2025-11-04" _
              eq_refl eq_refl eq_refl) as [_ Hsync].
  discriminate Hsync.
Qed.

Lemma sweep_cursor_witness :
  exists d' stats,
    pull_and_process_emails no_float no_text classify_list_category no_repr
      init_db [an_email] "2025-11-04" = (d', Ok stats).
Proof.
  apply (sweep_cursor no_float no_text classify_list_category no_repr
           init_db [an_email] "2025-11-04").
  intros em [<-|[]]. reflexivity.
Defined.

(** ** Rounding in the answers of the tools *)










Lemma get_expenses_between_in d start_date end_date r :
  In r (get_expenses_between d start_date end_date)
  <-> In r (expenses d) /\ between start_date end_date (e_date r) = true.
Proof.
  unfold get_expenses_between.
  rewrite <- (filter_In (fun r => between start_date end_date (e_date r))).
  split; apply Permutation_in;
    [ | apply Permutation_sym ]; apply order_by_perm.
Qed.


(** A store whose only expense is of 0.125. *)
Definition eighth_db : db :=
  mk_db
    [ mk_expense 1 (Some "2025-11-03") (Some "Kiosk") (1 # 8) None
        (Some "Food") (Some "chat") None None ]
    1 [] 0 None.

Example recent_eighth :
  get_recent_expenses eighth_db 2025 11 10
  = Ok [mk_recent_expense (Some "2025-11-03") "Kiosk" (1 # 8) "Food" ""].
Proof. reflexivity. Qed.



(** ** The order of dates *)

Lemma ascii_compare_refl x : Ascii.compare x x = Eq.
Proof. unfold Ascii.compare. apply N.compare_refl. Qed.

Lemma ascii_compare_lt_trans x y z :
  Ascii.compare x y = Lt -> Ascii.compare y z = Lt -> Ascii.compare x z = Lt.
Proof.
  unfold Ascii.compare. rewrite !N.compare_lt_iff. apply N.lt_trans.
Qed.

Lemma string_compare_le_trans a :
  forall b c,
  String.compare a b <> Gt -> String.compare b c <> Gt ->
  String.compare a c <> Gt.
Proof.
  induction a as [|x a IH]; intros [|y b] [|z c]; simpl; try congruence.
  destruct (Ascii.compare x y) eqn:Exy; try congruence.
  - apply Ascii.compare_eq_iff in Exy. subst y.
    destruct (Ascii.compare x z); try congruence. apply IH.
  - destruct (Ascii.compare y z) eqn:Eyz; try congruence.
    + apply Ascii.compare_eq_iff in Eyz. subst z. rewrite Exy. congruence.
    + rewrite (ascii_compare_lt_trans x y z Exy Eyz). congruence.
Qed.

Lemma string_leb_trans a b c :
  String.leb a b = true -> String.leb b c = true -> String.leb a c = true.
Proof.
  unfold String.leb. intros Hab Hbc.
  pose proof (string_compare_le_trans a b c) as H.
  destruct (String.compare a b); try discriminate;
    destruct (String.compare b c); try discriminate;
    destruct (String.compare a c); try reflexivity;
    exfalso; apply H; congruence.
Qed.

(** [a] does not come after [b] in [ORDER BY date ASC]. *)
Definition date_le (a b : expense_row) : Prop :=
  opt_string_leb (e_date a) (e_date b) = true.

Lemma opt_string_leb_total a b :
  opt_string_leb a b = true \/ opt_string_leb b a = true.
Proof.
  destruct a as [x|], b as [y|]; simpl; auto. apply String.leb_total.
Qed.

Lemma opt_string_leb_trans a b c :
  opt_string_leb a b = true -> opt_string_leb b c = true ->
  opt_string_leb a c = true.
Proof.
  destruct a as [x|], b as [y|], c as [z|]; simpl; try congruence.
  apply string_leb_trans.
Qed.

Section Sorting.

Context {A : Type} (le : A -> A -> bool).
Hypothesis le_total : forall a b, le a b = true \/ le b a = true.
Hypothesis le_trans :
  forall a b c, le a b = true -> le b c = true -> le a c = true.

Let R (a b : A) : Prop := le a b = true.

Lemma insert_sorted_sorted x l :
  StronglySorted R l -> StronglySorted R (insert_sorted le x l).
Proof.
  induction 1 as [|y l Hs IH Hall]; simpl.
  - constructor; constructor.
  - destruct (le x y) eqn:E.
    + constructor; [now constructor|].
      constructor; [exact E|].
      rewrite Forall_forall in *. intros z Hz.
      apply (le_trans x y z E). now apply Hall.
    + constructor; [exact IH|].
      rewrite Forall_forall in *. intros z Hz.
      apply (Permutation_in _ (insert_sorted_perm le x l)) in Hz.
      destruct Hz as [<-|Hz]; [|now apply Hall].
      destruct (le_total x y) as [H|H]; [congruence|exact H].
Qed.

Lemma order_by_sorted l : StronglySorted R (order_by le l).
Proof.
  induction l as [|x l IH]; simpl.
  - constructor.
  - apply insert_sorted_sorted. exact IH.
Qed.


End Sorting.




(** ** The detail of a category *)





Example category_spending_november :
  get_category_spending november_db 2025 11 "FOOD" None None
  = Ok (mk_category_spending "FOOD" "2025-11" (3500 # 100) 2
          [ mk_transaction (Some "2025-11-03") (Some "Chipotle") 15;
            mk_transaction (Some "2025-11-07") (Some "Deli") 20 ]).
Proof. reflexivity. Qed.



(** ** Groups and dicts *)



Lemma opt_string_eqb_refl a : opt_string_eqb a a = true.
Proof. now apply opt_string_eqb_eq. Qed.


Lemma group_by_snoc key rows r :
  group_by key (rows ++ [r])
  = group_add (key r) (e_amount r) (group_by key rows).
Proof. unfold group_by. now rewrite fold_left_app. Qed.

Lemma py_sum_nil : py_sum [] = 0%Q.
Proof. reflexivity. Qed.

Lemma py_sum_single x : (py_sum [x] == x)%Q.
Proof. unfold py_sum. cbn [fold_left]. ring. Qed.














Lemma dict_of_snoc {A V} (key : A -> string) (val : A -> V) l x :
  dict_of key val (l ++ [x]) = dict_set (key x) (val x) (dict_of key val l).
Proof. unfold dict_of. now rewrite fold_left_app. Qed.

(** A dict comprehension maps a key to the value of an element with that
    key, and has every key of the list. *)
Lemma dict_of_lookup {A V} (key : A -> string) (val : A -> V) l c :
  match dict_lookup c (dict_of key val l) with
  | Some v => exists x, In x l /\ key x = c /\ val x = v
  | None => forall x, In x l -> key x <> c
  end.
Proof.
  induction l as [|x l IH] using rev_ind.
  - cbn. intros x [].
  - rewrite dict_of_snoc.
    destruct (String.eqb_spec c (key x)) as [->|Hne].
    + rewrite dict_lookup_set_same. exists x.
      split; [apply in_or_app; right; now left | auto].
    + rewrite dict_lookup_set_other by exact Hne.
      destruct (dict_lookup c (dict_of key val l)) as [v|].
      * destruct IH as (y & Hin & Hk & Hv). exists y.
        split; [apply in_or_app; now left | auto].
      * intros y Hin. apply in_app_or in Hin.
        destruct Hin as [Hin|[<-|[]]]; [now apply IH | congruence].
Qed.



(** The label of a group in the answer of [aggregate_by_field]. *)
Definition label (g : group) : agg_row :=
  let '(k, t, c) := g in mk_agg (str_or k "Uncategorized") t c.





(** ** The budget status *)


(** The scenario of the specification: a budget of 300 for Food, then two
    Food expenses of 100 and 250 in November 2025. *)
Definition food_db : db :=
  let d0 := set_budget init_db "Food" 300 "monthly" in
  let d1 :=
    fst (record_expense no_float no_text d0 "2025-11-04" 100 (Some "Deli")
           (Some "Food") (Some "2025-11-03") None None) in
  fst (record_expense no_float no_text d1 "2025-11-04" 250 (Some "Grocer")
         (Some "Food") None None None).

Example budget_status_food :
  get_budget_status food_db 2025 11
  = Ok [ mk_budget_status "Food" (Some 300%Q) (35000 # 100)
           (Some (-5000 # 100)%Q) true ].
Proof. reflexivity. Qed.

(** A budget of 300 for Food and one Food expense of 300.001. *)
Definition overspent_db : db :=
  let d0 := set_budget init_db "Food" 300 "monthly" in
  fst (record_expense no_float no_text d0 "2025-11-04" (300001 # 1000)
         (Some "Deli") (Some "Food") None None None).

Example budget_status_overspent :
  get_budget_status overspent_db 2025 11
  = Ok [ mk_budget_status "Food" (Some 300%Q) (30000 # 100)
           (Some (0 # 100)%Q) true ].
Proof. reflexivity. Qed.



(** * More of the store *)

(** ** Budgets *)

(** The row of [budgets] for a category. *)
Definition budget_of (c : string) (rows : list budget_row)
  : option budget_row :=
  find (fun b => String.eqb (b_category b) c) rows.

Definition has_budget (c : string) (rows : list budget_row) : bool :=
  existsb (fun b => String.eqb (b_category b) c) rows.


Lemma upsert_budget_categories c a p next rows :
  map b_category (fst (upsert_budget c a p next rows))
  = if has_budget c rows then map b_category rows
    else (map b_category rows ++ [c])%list.
Proof.
  induction rows as [|b rows IH]; cbn [upsert_budget has_budget existsb].
  - reflexivity.
  - destruct (String.eqb_spec (b_category b) c) as [E|E]; cbn [orb].
    + cbn. now rewrite E.
    + destruct (upsert_budget c a p next rows) as [rs fresh].
      cbn [fst map] in *. rewrite IH. fold (has_budget c rows).
      destruct (has_budget c rows); reflexivity.
Qed.

Lemma upsert_budget_same c a p next rows :
  budget_of c (fst (upsert_budget c a p next rows))
  = Some (mk_budget
            match budget_of c rows with
            | Some b => b_id b
            | None => next
            end c a p).
Proof.
  unfold budget_of.
  induction rows as [|b rows IH]; cbn [upsert_budget find fst].
  - cbn. now rewrite String.eqb_refl.
  - destruct (String.eqb (b_category b) c) eqn:E.
    + cbn. now rewrite String.eqb_refl.
    + destruct (upsert_budget c a p next rows) as [rs fresh].
      cbn [fst find] in *. now rewrite E.
Qed.

Lemma upsert_budget_other c c' a p next rows :
  c' <> c ->
  budget_of c' (fst (upsert_budget c a p next rows)) = budget_of c' rows.
Proof.
  intros Hne. unfold budget_of.
  induction rows as [|b rows IH]; cbn [upsert_budget find fst].
  - cbn. apply not_eq_sym in Hne. apply String.eqb_neq in Hne. now rewrite Hne.
  - destruct (String.eqb_spec (b_category b) c) as [E|E].
    + cbn. rewrite E. apply not_eq_sym in Hne. apply String.eqb_neq in Hne.
      now rewrite Hne.
    + destruct (upsert_budget c a p next rows) as [rs fresh].
      cbn [fst find] in *. now rewrite IH.
Qed.

Lemma set_budget_budgets d c a p :
  budgets (set_budget d c a p)
  = fst (upsert_budget c a p (budgets_seq d + 1) (budgets d)).
Proof.
  unfold set_budget. now destruct (upsert_budget _ _ _ _ _).
Qed.

(** What [set_budget] does to the table: the category has the new amount
    and period, a category that had a row keeps one row and its id, a new
    category gets one more row, and the rows of the other categories, the
    expenses and the cursor stay as they were. *)
Theorem set_budget_get_budgets (d : db) (c : string) (a : Q) (p : string) :
  let d' := set_budget d c a p in
  budget_of c (get_budgets d')
  = Some (mk_budget
            match budget_of c (get_budgets d) with
            | Some b => b_id b
            | None => budgets_seq d + 1
            end c a p)
  /\ (forall c', c' <> c ->
      budget_of c' (get_budgets d') = budget_of c' (get_budgets d))
  /\ map b_category (get_budgets d')
     = (if has_budget c (get_budgets d) then map b_category (get_budgets d)
        else (map b_category (get_budgets d) ++ [c])%list)
  /\ expenses d' = expenses d
  /\ sync_state d' = sync_state d.
Proof.
  unfold get_budgets. cbv zeta. rewrite set_budget_budgets.
  repeat split.
  - apply upsert_budget_same.
  - intros c' Hne. now apply upsert_budget_other.
  - apply upsert_budget_categories.
  - apply set_budget_expenses.
  - unfold set_budget. now destruct (upsert_budget _ _ _ _ _).
Qed.

Lemma has_budget_in c rows :
  has_budget c rows = true <-> In c (map b_category rows).
Proof.
  unfold has_budget. rewrite existsb_exists, in_map_iff.
  split; intros (b & H1 & H2).
  - exists b. rewrite String.eqb_eq in H2. auto.
  - exists b. rewrite String.eqb_eq. auto.
Qed.

Lemma upsert_budget_nodup c a p next rows :
  NoDup (map b_category rows) ->
  NoDup (map b_category (fst (upsert_budget c a p next rows))).
Proof.
  intros Hnd. rewrite upsert_budget_categories.
  destruct (has_budget c rows) eqn:E; [exact Hnd|].
  apply NoDup_app; auto.
  - constructor; [intros []|constructor].
  - intros c' Hin [<-|[]]. apply has_budget_in in Hin. congruence.
Qed.



(** ** Invariants of the reachable states *)

Lemma sorted_snoc {A} (R : A -> A -> Prop) l x :
  StronglySorted R l -> Forall (fun y => R y x) l ->
  StronglySorted R (l ++ [x]).
Proof.
  induction 1 as [|y l Hs IH Hall]; intros Hx; simpl.
  - constructor; constructor.
  - inversion Hx as [|? ? Hyx Hx']; subst.
    constructor; [now apply IH|].
    apply Forall_app. split; [exact Hall | now constructor].
Qed.

Lemma nodup_map_inj {A B} (f : A -> B) l x y :
  NoDup (map f l) -> In x l -> In y l -> f x = f y -> x = y.
Proof.
  induction l as [|z l IH]; simpl; intros Hnd Hx Hy E; [destruct Hx|].
  inversion Hnd as [|? ? Hnotin Hnd']; subst.
  destruct Hx as [->|Hx], Hy as [->|Hy]; auto.
  - exfalso. apply Hnotin. rewrite E. now apply in_map.
  - exfalso. apply Hnotin. rewrite <- E. now apply in_map.
Qed.

Lemma assign_category_ids d expense_id category :
  map e_id (expenses (assign_category_to_expense d expense_id category))
  = map e_id (expenses d).
Proof.
  unfold assign_category_to_expense. cbn [expenses]. rewrite map_map.
  apply map_ext. intros r. now destruct (e_id r =? expense_id).
Qed.

Section Invariants.

Variable float_of_str : string -> option Q.
Variable text_of_real : Q -> string.

(** The rowids of [expenses] are handed out by AUTOINCREMENT, so they
    grow with the order of insertion and never exceed the counter; the
    categories of [budgets] are pairwise different. *)
Theorem reachable_keys (d : db) :
  reachable float_of_str text_of_real d ->
  StronglySorted Z.lt (map e_id (expenses d))
  /\ (forall r, In r (expenses d) -> 1 <= e_id r <= expenses_seq d)
  /\ 0 <= expenses_seq d
  /\ NoDup (map b_category (budgets d)).
Proof.
  induction 1 as [|d exp d' _ IH Hs| d c a p _ IH | d i c _ IH | d t h _ IH].
  - cbn. split; [constructor|]. split; [intros r []|]. split; [lia|].
    constructor.
  - destruct IH as (Hsorted & Hle & Hseq & Hnd).
    apply save_expense_ok_inv in Hs.
    destruct Hs as (amount & date & vendor & currency & category & source
                    & notes & email_id & _ & _ & _ & _ & _ & _ & _ & _ & _
                    & ->).
    cbn [expenses expenses_seq budgets].
    split; [|split; [|split]].
    + rewrite map_app. apply sorted_snoc; [exact Hsorted|].
      apply Forall_forall. intros i Hi. apply in_map_iff in Hi.
      destruct Hi as (r & <- & Hr). cbn. specialize (Hle r Hr). lia.
    + intros r Hr. apply in_app_or in Hr. destruct Hr as [Hr|[<-|[]]].
      * specialize (Hle r Hr). lia.
      * cbn. lia.
    + lia.
    + exact Hnd.
  - destruct IH as (Hsorted & Hle & Hseq & Hnd).
    rewrite set_budget_expenses, set_budget_budgets.
    assert (expenses_seq (set_budget d c a p) = expenses_seq d) as ->
      by (unfold set_budget; now destruct (upsert_budget _ _ _ _ _)).
    split; [exact Hsorted|]. split; [exact Hle|]. split; [exact Hseq|].
    now apply upsert_budget_nodup.
  - destruct IH as (Hsorted & Hle & Hseq & Hnd).
    rewrite assign_category_ids.
    split; [exact Hsorted|]. split; [|split; [exact Hseq | exact Hnd]].
    intros r Hr. unfold assign_category_to_expense in Hr.
    cbn [expenses] in Hr. apply in_map_iff in Hr.
    destruct Hr as (r0 & <- & Hr0). specialize (Hle r0 Hr0).
    cbn [expenses_seq assign_category_to_expense].
    destruct (e_id r0 =? i); cbn; lia.
  - exact IH.
Qed.

(** In a reachable state a budget row is the row of its category, and the
    dict that [get_budget_status] builds from [get_budgets] maps the
    category to the amount of that row. *)
Theorem reachable_budget_lookup (d : db) (b : budget_row) :
  reachable float_of_str text_of_real d ->
  In b (get_budgets d) ->
  budget_of (b_category b) (get_budgets d) = Some b
  /\ dict_lookup (b_category b)
       (dict_of b_category b_amount (get_budgets d))
     = Some (b_amount b).
Proof.
  intros Hr Hin. destruct (reachable_keys d Hr) as (_ & _ & _ & Hnd).
  unfold get_budgets in *. split.
  - unfold budget_of.
    destruct (find _ (budgets d)) as [b'|] eqn:E.
    + apply find_some in E. destruct E as [Hin' E].
      apply String.eqb_eq in E. f_equal.
      now apply (nodup_map_inj b_category (budgets d)).
    + apply (find_none _ _ E) in Hin. now rewrite String.eqb_refl in Hin.
  - pose proof (dict_of_lookup b_category b_amount (budgets d)
                  (b_category b)) as H.
    destruct (dict_lookup _ _) as [v|].
    + destruct H as (b' & Hin' & E & <-). f_equal. f_equal.
      now apply (nodup_map_inj b_category (budgets d)).
    + exfalso. now apply (H b Hin).
Qed.

End Invariants.

Lemma reachable_keys_witness :
  let d := set_budget (set_budget init_db "Food" 300 "monthly") "Fun" 50
             "monthly" in
  NoDup (map b_category (budgets d)).
Proof.
  intros d.
  apply (reachable_keys no_float no_text d).
  repeat constructor.
Defined.

Lemma reachable_budget_lookup_witness :
  let d := set_budget (set_budget init_db "Food" 300 "monthly") "Food" 250
             "monthly" in
  dict_lookup "Food" (dict_of b_category b_amount (get_budgets d))
  = Some 250%Q.
Proof.
  intros d.
  apply (reachable_budget_lookup no_float no_text d
           (mk_budget 1 "Food" 250 "monthly")).
  - repeat constructor.
  - now left.
Defined.

(** ** Correcting a category *)

Lemma filter_map_invariant {A} (p : A -> bool) (f : A -> A) l :
  (forall x, p (f x) = p x) -> filter p (map f l) = map f (filter p l).
Proof.
  intros H. induction l as [|x l IH]; simpl; [reflexivity|].
  rewrite H. destruct (p x); simpl; now rewrite IH.
Qed.

Lemma map_id_in {A} (f : A -> A) l :
  (forall x, In x l -> f x = x) -> map f l = l.
Proof.
  induction l as [|x l IH]; intros H; simpl; [reflexivity|].
  rewrite (H x (or_introl eq_refl)). f_equal. apply IH.
  intros y Hy. apply H. now right.
Qed.

(** The update of [assign_category_to_expense], on one row. *)
Definition recategorise (expense_id : Z) (category : string)
  (r : expense_row) : expense_row :=
  if e_id r =? expense_id
  then mk_expense (e_id r) (e_date r) (e_vendor r) (e_amount r)
         (e_currency r) (Some category) (e_source r) (e_notes r)
         (e_email_id r)
  else r.

Lemma assign_category_expenses d expense_id category :
  expenses (assign_category_to_expense d expense_id category)
  = map (recategorise expense_id category) (expenses d).
Proof. reflexivity. Qed.

(** [assign_category_to_expense] rewrites the category of the rows with the
    given id and nothing else: the ids, the other rows, the budgets and the
    cursor stay, so do the total of any range and the grouping by vendor;
    with an id that no row has, the database is unchanged. *)
Theorem assign_category_effect (d : db) (expense_id : Z) (category : string) :
  let d' := assign_category_to_expense d expense_id category in
  map e_id (expenses d') = map e_id (expenses d)
  /\ (forall r, In r (expenses d) -> e_id r <> expense_id ->
      In r (expenses d'))
  /\ (forall r, In r (expenses d) -> e_id r = expense_id ->
      In (mk_expense (e_id r) (e_date r) (e_vendor r) (e_amount r)
            (e_currency r) (Some category) (e_source r) (e_notes r)
            (e_email_id r))
         (expenses d'))
  /\ ((forall r, In r (expenses d) -> e_id r <> expense_id) -> d' = d)
  /\ (forall start_date end_date,
      total_spent d' start_date end_date = total_spent d start_date end_date
      /\ aggregate_by_field d' start_date end_date "vendor"
         = aggregate_by_field d start_date end_date "vendor")
  /\ budgets d' = budgets d /\ sync_state d' = sync_state d.
Proof.
  cbv zeta. split; [apply assign_category_ids|].
  rewrite assign_category_expenses.
  split; [|split; [|split; [|split; [|split; reflexivity]]]].
  - intros r Hin Hne.
    replace r with (recategorise expense_id category r).
    + now apply in_map.
    + unfold recategorise. apply Z.eqb_neq in Hne. now rewrite Hne.
  - intros r Hin He.
    replace (mk_expense _ _ _ _ _ _ _ _ _)
      with (recategorise expense_id category r).
    + now apply in_map.
    + unfold recategorise. apply Z.eqb_eq in He. now rewrite He.
  - intros Hnone. unfold assign_category_to_expense.
    fold (recategorise expense_id category).
    rewrite map_id_in; [now destruct d|].
    intros r Hin. unfold recategorise.
    specialize (Hnone r Hin). apply Z.eqb_neq in Hnone. now rewrite Hnone.
  - intros start_date end_date.
    assert (forall (key : expense_row -> option string),
              (forall r, key (recategorise expense_id category r) = key r) ->
              forall p : option string -> bool,
              filter (fun r => p (key r))
                (map (recategorise expense_id category) (expenses d))
              = map (recategorise expense_id category)
                  (filter (fun r => p (key r)) (expenses d))) as Hf.
    { intros key Hk p. apply filter_map_invariant.
      intros r. now rewrite Hk. }
    assert (forall r, e_date (recategorise expense_id category r) = e_date r)
      as Hdate by (intros r; unfold recategorise;
                   now destruct (e_id r =? expense_id)).
    split.
    + unfold total_spent. rewrite assign_category_expenses.
      rewrite (Hf e_date Hdate (between start_date end_date)).
      rewrite map_map.
      replace (map (fun x => e_amount (recategorise expense_id category x))
                 (filter (fun r => between start_date end_date (e_date r))
                    (expenses d)))
        with (map e_amount
                (filter (fun r => between start_date end_date (e_date r))
                   (expenses d))); [reflexivity|].
      apply map_ext. intros r. unfold recategorise.
      now destruct (e_id r =? expense_id).
    + unfold aggregate_by_field. rewrite assign_category_expenses.
      cbn [String.eqb Ascii.eqb Bool.eqb orb negb].
      rewrite (Hf e_date Hdate (between start_date end_date)).
      f_equal. f_equal. unfold group_by.
      generalize (@nil group).
      induction (filter _ (expenses d)) as [|r rows IH]; intros gs;
        cbn [map fold_left]; [reflexivity|].
      rewrite IH. f_equal. unfold recategorise.
      now destruct (e_id r =? expense_id).
Qed.

(** ** Queries over a range *)

(** [get_expenses_between] returns the rows whose date lies in the closed
    range, each once, in ascending order of date; a row without date is
    never returned, and a range whose end precedes its start has no row. *)
Theorem get_expenses_between_spec (d : db) (start_date end_date : string) :
  Permutation (get_expenses_between d start_date end_date)
    (in_range d start_date end_date)
  /\ StronglySorted date_le (get_expenses_between d start_date end_date)
  /\ (forall r, In r (get_expenses_between d start_date end_date) ->
      exists t, e_date r = Some t
                /\ String.leb start_date t = true
                /\ String.leb t end_date = true)
  /\ (String.leb start_date end_date = false ->
      get_expenses_between d start_date end_date = []).
Proof.
  assert (forall r, In r (get_expenses_between d start_date end_date) ->
          exists t, e_date r = Some t
                    /\ String.leb start_date t = true
                    /\ String.leb t end_date = true) as Hdates.
  { intros r Hr. apply get_expenses_between_in in Hr.
    destruct Hr as [_ Hb]. unfold between in Hb.
    destruct (e_date r) as [t|]; [|discriminate].
    apply andb_true_iff in Hb. exists t. tauto. }
  split; [apply order_by_perm|]. split; [|split; [exact Hdates|]].
  - apply (order_by_sorted
             (fun a b => opt_string_leb (e_date a) (e_date b))).
    + intros a b. apply opt_string_leb_total.
    + intros a b c. apply opt_string_leb_trans.
  - intros Hinv.
    destruct (get_expenses_between d start_date end_date) as [|r rows] eqn:E;
      [reflexivity|].
    destruct (Hdates r (or_introl eq_refl)) as (t & _ & H1 & H2).
    rewrite (string_leb_trans _ _ _ H1 H2) in Hinv. discriminate.
Qed.

(** ** Groups *)

Definition sum_counts (l : list agg_row) : Z :=
  fold_right Z.add 0 (map count l).

Definition group_count (g : group) : Z := snd g.

Lemma group_add_counts k a gs :
  fold_right Z.add 0 (map group_count (group_add k a gs))
  = fold_right Z.add 0 (map group_count gs) + 1.
Proof.
  induction gs as [|[[k' t] c] gs IH]; cbn [group_add map fold_right].
  - reflexivity.
  - destruct (opt_string_eqb k k'); cbn [map fold_right].
    + change (group_count (k', (t + a)%Q, c + 1)) with (c + 1).
      change (group_count (k', t, c)) with c. lia.
    + rewrite IH. lia.
Qed.

Lemma group_add_positive k a gs :
  Forall (fun g => 1 <= group_count g) gs ->
  Forall (fun g => 1 <= group_count g) (group_add k a gs).
Proof.
  induction 1 as [|[[k' t] c] gs Hc Hall IH]; cbn [group_add].
  - constructor; [cbn; lia | constructor].
  - change (group_count (k', t, c)) with c in Hc.
    destruct (opt_string_eqb k k'); constructor; auto.
    change (group_count (k', (t + a)%Q, c + 1)) with (c + 1). lia.
Qed.

Lemma group_by_counts key rows :
  fold_right Z.add 0 (map group_count (group_by key rows))
  = Z.of_nat (List.length rows)
  /\ Forall (fun g => 1 <= group_count g) (group_by key rows).
Proof.
  induction rows as [|r rows [IH1 IH2]] using rev_ind.
  - split; [reflexivity | constructor].
  - rewrite group_by_snoc, group_add_counts, IH1, List.length_app.
    split; [cbn; lia | now apply group_add_positive].
Qed.

Lemma fold_right_add_perm l l' :
  Permutation l l' -> fold_right Z.add 0 l = fold_right Z.add 0 l'.
Proof.
  induction 1; cbn [fold_right]; lia.
Qed.

Lemma sorted_map {A B} (R : A -> A -> Prop) (S : B -> B -> Prop)
  (f : A -> B) l :
  (forall a b, R a b -> S (f a) (f b)) ->
  StronglySorted R l -> StronglySorted S (map f l).
Proof.
  intros H. induction 1 as [|x l Hs IH Hall]; cbn [map]; constructor; auto.
  rewrite Forall_forall in *. intros y Hy. apply in_map_iff in Hy.
  destruct Hy as (z & <- & Hz). auto.
Qed.

Lemma aggregate_by_field_labels d start_date end_date fld :
  exists key,
    aggregate_by_field d start_date end_date fld
    = map label
        (order_by (fun g h => Qle_bool (group_total h) (group_total g))
           (group_by key (in_range d start_date end_date))).
Proof. unfold aggregate_by_field. eexists. reflexivity. Qed.

Lemma aggregate_by_field_sorted d start_date end_date fld :
  StronglySorted (fun a b => (total b <= total a)%Q)
    (aggregate_by_field d start_date end_date fld).
Proof.
  destruct (aggregate_by_field_labels d start_date end_date fld)
    as (key & ->).
  apply (sorted_map
           (fun g h => Qle_bool (group_total h) (group_total g) = true)).
  - intros [[k t] c] [[k' t'] c'] H. apply Qle_bool_iff in H. exact H.
  - apply order_by_sorted.
    + intros a b. rewrite !Qle_bool_iff.
      destruct (Qlt_le_dec (group_total a) (group_total b)) as [H|H];
        [right; now apply Qlt_le_weak | now left].
    + intros a b c. rewrite !Qle_bool_iff. intros H1 H2.
      now apply (Qle_trans _ (group_total b)).
Qed.

(** The answer of [aggregate_by_field] is in descending order of total;
    every group counts at least one expense and the counts add up to the
    number of expenses of the range; a field other than "vendor" groups by
    category. *)
Theorem aggregate_by_field_shape (d : db) (start_date end_date fld : string) :
  StronglySorted (fun a b => (total b <= total a)%Q)
    (aggregate_by_field d start_date end_date fld)
  /\ Forall (fun a => 1 <= count a)
       (aggregate_by_field d start_date end_date fld)
  /\ sum_counts (aggregate_by_field d start_date end_date fld)
     = Z.of_nat (List.length (in_range d start_date end_date))
  /\ (fld <> "vendor" ->
      aggregate_by_field d start_date end_date fld
      = aggregate_by_field d start_date end_date "category").
Proof.
  destruct (aggregate_by_field_labels d start_date end_date fld)
    as (key & Hagg).
  destruct (group_by_counts key (in_range d start_date end_date))
    as (Hsum & Hpos).
  split; [|split; [|split]].
  - apply aggregate_by_field_sorted.
  - rewrite Hagg. apply Forall_forall. intros a Ha. apply in_map_iff in Ha.
    destruct Ha as (g & <- & Hg).
    apply (Permutation_in _ (order_by_perm _ _)) in Hg.
    rewrite Forall_forall in Hpos. specialize (Hpos g Hg).
    now destruct g as [[k t] c].
  - unfold sum_counts. rewrite Hagg, map_map.
    replace (map (fun x => count (label x)) _)
      with (map group_count
              (order_by (fun g h => Qle_bool (group_total h) (group_total g))
                 (group_by key (in_range d start_date end_date))))
      by (apply map_ext; now intros [[k t] c]).
    rewrite <- Hsum. apply fold_right_add_perm, Permutation_map, order_by_perm.
  - intros Hne. unfold aggregate_by_field.
    destruct (String.eqb_spec fld "category") as [->|Hc]; [reflexivity|].
    destruct (String.eqb_spec fld "vendor") as [->|Hv]; [congruence|].
    reflexivity.
Qed.

(** ** Recording from the chat *)

Lemma bind_text_opt_str text_of_real s :
  bind_text text_of_real (opt_str_val s) = Ok s.
Proof. now destruct s. Qed.

Section RecordExpense.

Variable float_of_str : string -> option Q.
Variable text_of_real : Q -> string.

(** The row that [record_expense] stores. *)
Definition chat_row (d : db) (today : string) (amount : Q)
  (vendor category date currency notes : option string) : expense_row :=
  mk_expense (expenses_seq d + 1) (Some (str_or date today)) vendor
    (if Qnonzero amount then amount else 0%Q) currency
    (Some (str_or category "Uncategorized")) (Some "chat") notes None.

Lemma record_expense_run d today amount vendor category date currency notes :
  fst (record_expense float_of_str text_of_real d today amount vendor
         category date currency notes)
  = mk_db
      (expenses d ++
       [chat_row d today amount vendor category date currency notes])
      (expenses_seq d + 1) (budgets d) (budgets_seq d) (sync_state d)
  /\ exists expense_data,
       snd (record_expense float_of_str text_of_real d today amount vendor
              category date currency notes) = Ok expense_data.
Proof.
  unfold record_expense, save_expense, chat_row.
  cbn [dict_get dict_lookup String.eqb Ascii.eqb Bool.eqb].
  rewrite !bind_text_opt_str.
  unfold py_or. cbn [truthy bind_text py_float bind email_id_taken].
  destruct (Qnonzero amount); cbn [py_float bind fst snd]; eauto.
Qed.

(** [record_expense] never fails: it adds one row, with the next id, the
    source "chat", the given date or today, the given category or
    "Uncategorized", no [email_id] and the given amount; a query over a
    range returns that row exactly when its date is in the range, and the
    total of the range grows by its amount. *)
Theorem record_expense_round_trip (d : db) (today : string) (amount : Q)
  (vendor category date currency notes : option string)
  (start_date end_date : string) :
  let out := record_expense float_of_str text_of_real d today amount vendor
               category date currency notes in
  let row := chat_row d today amount vendor category date currency notes in
  (exists expense_data, snd out = Ok expense_data)
  /\ expenses (fst out) = (expenses d ++ [row])%list
  /\ (e_amount row == amount)%Q
  /\ (In row (get_expenses_between (fst out) start_date end_date)
      <-> between start_date end_date (Some (str_or date today)) = true)
  /\ (total_spent (fst out) start_date end_date
      == total_spent d start_date end_date
         + (if between start_date end_date (Some (str_or date today))
            then amount else 0))%Q.
Proof.
  cbv zeta.
  destruct (record_expense_run d today amount vendor category date currency
              notes) as (Hrun & Hok).
  rewrite Hrun. cbn [expenses].
  set (row := chat_row d today amount vendor category date currency notes).
  assert (e_amount row == amount)%Q as Ham.
  { unfold row, chat_row. cbn [e_amount]. unfold Qnonzero.
    destruct (Qeq_bool amount 0) eqn:E; cbn [negb]; [|reflexivity].
    apply Qeq_bool_eq in E. now rewrite E. }
  split; [exact Hok|]. split; [reflexivity|]. split; [exact Ham|]. split.
  - rewrite get_expenses_between_in. cbn [expenses]. split.
    + intros [_ H]. exact H.
    + intros H. split; [apply in_or_app; right; now left | exact H].
  - rewrite !total_spent_sum. unfold in_range. cbn [expenses].
    rewrite filter_app, map_app, py_sum_app. cbn [filter].
    change (e_date row) with (Some (str_or date today)).
    destruct (between start_date end_date (Some (str_or date today)));
      cbn [map].
    + now rewrite py_sum_single, Ham.
    + now rewrite py_sum_nil.
Qed.

End RecordExpense.

(** ** More on the sweep *)

Section SweepEffects.

Variable float_of_str : string -> option Q.
Variable text_of_real : Q -> string.
Variable classify_email : string -> string -> string -> pyval.
Variable py_repr : pyval -> string.

(** A row that the sweep may insert for an e-mail into a database. *)
Definition swept_row (d : db) (em : email) (row : expense_row) : Prop :=
  e_id row = expenses_seq d + 1
  /\ e_source row = Some "gmail"
  /\ e_email_id row = Some (em_id em)
  /\ email_already_processed d (em_id em) = false.

(** One turn of the loop touches [expenses] only, and only by appending
    one row for its e-mail. *)
Lemma process_email_effect d found saved em d' r :
  process_email float_of_str text_of_real classify_email py_repr d found
    saved em = (d', r) ->
  budgets d' = budgets d /\ sync_state d' = sync_state d
  /\ ((d' = d /\ forall f s, r = Ok (f, s) -> s = saved)
      \/ exists row,
           d' = mk_db (expenses d ++ [row]) (expenses_seq d + 1) (budgets d)
                  (budgets_seq d) (sync_state d)
           /\ swept_row d em row
           /\ exists f, r = Ok (f, saved + 1)).
Proof.
  unfold process_email.
  assert (forall (x : db * result (Z * Z)),
            x = (d', r) -> fst x = d' /\ snd x = r) as Hpair
    by (intros x ->; auto).
  destruct (classify_email _ _ _) as [| b | z | q | s | l | c];
    try (intros H; injection H as <- <-; repeat split; left; split;
         [reflexivity | discriminate]).
  cbn [py_get bind].
  destruct (truthy (dict_get_default c "is_expense" PyNone)).
  2:{ intros H; injection H as <- <-. repeat split. left.
      split; [reflexivity|]. intros f s E. now injection E. }
  destruct (py_ge (dict_get_default c "confidence" (PyInt 0)) (7 # 10))
    as [[|]|e].
  3:{ intros H; injection H as <- <-. repeat split. left.
      split; [reflexivity | discriminate]. }
  2:{ intros H; injection H as <- <-. repeat split. left.
      split; [reflexivity|]. intros f s E. now injection E. }
  destruct (dict_get_default c "expense_data" PyNone)
    as [| b | z | q | s | l | data]; cbn [truthy bind].
  1:{ intros H; injection H as <- <-. repeat split. left.
      split; [reflexivity|]. intros f s E. now injection E. }
  1:{ destruct b; intros H; injection H as <- <-; repeat split; left;
      (split; [reflexivity|]); try discriminate.
      intros f s E. now injection E. }
  1:{ destruct (negb (z =? 0)); intros H; injection H as <- <-;
      repeat split; left; (split; [reflexivity|]); try discriminate.
      intros f s E. now injection E. }
  1:{ destruct (Qnonzero q); intros H; injection H as <- <-;
      repeat split; left; (split; [reflexivity|]); try discriminate.
      intros f s E. now injection E. }
  1:{ destruct (negb (String.eqb s "")); intros H; injection H as <- <-;
      repeat split; left; (split; [reflexivity|]); try discriminate.
      intros f s' E. now injection E. }
  1:{ destruct l; intros H; injection H as <- <-;
      repeat split; left; (split; [reflexivity|]); try discriminate.
      intros f s E. now injection E. }
  destruct data as [|kv data'] eqn:Edata.
  1:{ intros H; injection H as <- <-. repeat split. left.
      split; [reflexivity|]. intros f s E. now injection E. }
  rewrite <- Edata. clear Edata.
  destruct (truthy (dict_get data "amount")).
  2:{ intros H; injection H as <- <-. repeat split. left.
      split; [reflexivity|]. intros f s E. now injection E. }
  match goal with
  | |- context [save_expense float_of_str text_of_real d ?exp] =>
      destruct (save_expense float_of_str text_of_real d exp)
        as [d1|e] eqn:Es
  end.
  2:{ intros H; injection H as <- <-. repeat split. left.
      split; [reflexivity|]. intros f s E. now injection E. }
  intros H; injection H as <- <-.
  apply save_expense_ok_inv in Es.
  destruct Es as (amount & date & vendor & currency & category & source
                  & notes & email_id & _ & _ & _ & _ & _ & Esrc & _ & Eid
                  & Etaken & ->).
  unfold dict_get in Esrc, Eid.
  rewrite dict_lookup_set_other, dict_lookup_set_same in Eid by discriminate.
  rewrite !dict_lookup_set_other, dict_lookup_set_same in Esrc
    by discriminate.
  cbn in Esrc, Eid. injection Esrc as <-. injection Eid as <-.
  repeat split. right. eexists. split; [reflexivity|].
  split; [|eauto]. repeat split. exact Etaken.
Qed.

Lemma email_already_processed_snoc d row seq k :
  email_already_processed
    (mk_db (expenses d ++ [row]) seq (budgets d) (budgets_seq d)
       (sync_state d)) k
  = email_already_processed d k || opt_string_eqb (e_email_id row) (Some k).
Proof.
  unfold email_already_processed. cbn [expenses].
  rewrite existsb_app. cbn [existsb]. now rewrite orb_false_r.
Qed.

(** What a row added by the loop says about the batch and the database the
    loop started from. *)
Definition swept_from (d : db) (emails : list email) (row : expense_row)
  : Prop :=
  e_source row = Some "gmail"
  /\ exists em, In em emails /\ e_email_id row = Some (em_id em)
                /\ email_already_processed d (em_id em) = false.

Lemma process_emails_effect emails :
  forall d found saved d' r,
  process_emails float_of_str text_of_real classify_email py_repr d found
    saved emails = (d', r) ->
  budgets d' = budgets d /\ sync_state d' = sync_state d
  /\ exists new,
       expenses d' = (expenses d ++ new)%list
       /\ Forall (swept_from d emails) new
       /\ NoDup (map e_email_id new)
       /\ forall f s, r = Ok (f, s) -> s = saved + Z.of_nat (List.length new).
Proof.
  induction emails as [|em rest IH]; intros d found saved d' r H.
  - cbn in H. injection H as <- <-. repeat split. exists [].
    rewrite app_nil_r. repeat split; try constructor.
    intros f s E. injection E as _ <-. cbn. lia.
  - cbn [process_emails] in H.
    destruct (process_email float_of_str text_of_real classify_email py_repr
                d found saved em) as [d1 r1] eqn:E1.
    apply process_email_effect in E1.
    destruct E1 as (Hb1 & Hs1 & Hcase).
    destruct Hcase as [(-> & Hsaved)|(row & -> & Hrow & f1 & ->)].
    + destruct r1 as [[f1 s1]|e].
      * rewrite (Hsaved f1 s1 eq_refl) in H.
        destruct (IH _ _ _ _ _ H) as (Hb & Hs & new & Hnew & Hall & Hnd & Hn).
        repeat split; auto. exists new. repeat split; auto.
        eapply Forall_impl; [|exact Hall].
        intros row (Hsrc & em' & Hin & Hid & Hnot).
        split; [exact Hsrc|]. exists em'. cbn. auto.
      * injection H as <- <-. repeat split. exists [].
        rewrite app_nil_r. repeat split; try constructor. discriminate.
    + destruct (IH _ _ _ _ _ H) as (Hb & Hs & new & Hnew & Hall & Hnd & Hn).
      cbn [budgets sync_state expenses] in *.
      destruct Hrow as (_ & Hsrc & Hid & Hnot).
      repeat split; auto. exists (row :: new).
      split; [now rewrite Hnew, <- app_assoc|].
      split; [|split].
      * constructor.
        -- split; [exact Hsrc|]. exists em. cbn. auto.
        -- eapply Forall_impl; [|exact Hall].
           intros row' (Hsrc' & em' & Hin & Hid' & Hnot').
           split; [exact Hsrc'|]. exists em'. split; [now right|].
           split; [exact Hid'|].
           rewrite email_already_processed_snoc in Hnot'.
           now apply orb_false_iff in Hnot'.
      * cbn [map]. constructor; [|exact Hnd].
        intros Hin. apply in_map_iff in Hin.
        destruct Hin as (row' & Heq & Hin').
        rewrite Forall_forall in Hall.
        destruct (Hall row' Hin') as (_ & em' & _ & Hid' & Hnot').
        rewrite email_already_processed_snoc in Hnot'.
        apply orb_false_iff in Hnot'. destruct Hnot' as [_ Hne].
        rewrite <- Hid', Heq in Hne. now rewrite opt_string_eqb_refl in Hne.
      * intros f s E. rewrite (Hn f s E). cbn [List.length]. lia.
Qed.

(** A sweep only appends to [expenses]: the rows that were there stay, in
    place; each new row has the source "gmail" and the id of an e-mail of
    the batch that had no row before; the new rows have different ids and
    [expenses_saved] is their number; the budgets and the history id are
    not touched. *)
Theorem sweep_appends (d d' : db) (emails : list email) (now : string)
  (r : result sweep_stats) :
  pull_and_process_emails float_of_str text_of_real classify_email py_repr d
    emails now = (d', r) ->
  budgets d' = budgets d
  /\ last_history_id (get_sync_state d') = last_history_id (get_sync_state d)
  /\ exists new,
       expenses d' = (expenses d ++ new)%list
       /\ Forall (swept_from d emails) new
       /\ NoDup (map e_email_id new)
       /\ forall stats, r = Ok stats ->
          expenses_saved stats = Z.of_nat (List.length new).
Proof.
  unfold pull_and_process_emails.
  destruct (process_emails _ _ _ _ d 0 0 emails) as [d1 r1] eqn:E.
  apply process_emails_effect in E.
  destruct E as (Hb & Hs & new & Hnew & Hall & Hnd & Hn).
  destruct r1 as [[found saved]|e]; intros H; injection H as <- <-.
  - cbn [budgets expenses]. split; [exact Hb|]. split.
    + unfold get_sync_state, set_sync_state. cbn [sync_state].
      rewrite Hs. now destruct (sync_state d) as [[t h]|].
    + exists new. repeat split; auto.
      intros stats E. injection E as <-. cbn [expenses_saved].
      now rewrite (Hn found saved eq_refl).
  - split; [exact Hb|]. split.
    + unfold get_sync_state. now rewrite Hs.
    + exists new. repeat split; auto. discriminate.
Qed.

(** A sweep over e-mails that all have a row already inserts nothing and
    reports no expense saved, whatever the classifier answers. *)
Theorem sweep_known_ids (d d' : db) (emails : list email) (now : string)
  (r : result sweep_stats) :
  (forall em, In em emails -> email_already_processed d (em_id em) = true) ->
  pull_and_process_emails float_of_str text_of_real classify_email py_repr d
    emails now = (d', r) ->
  expenses d' = expenses d
  /\ forall stats, r = Ok stats -> expenses_saved stats = 0.
Proof.
  intros Hknown. unfold pull_and_process_emails.
  destruct (process_emails _ _ _ _ d 0 0 emails) as [d1 r1] eqn:E.
  apply process_emails_effect in E.
  destruct E as (_ & _ & new & Hnew & Hall & _ & Hn).
  assert (new = []) as ->.
  { destruct new as [|row new]; [reflexivity|].
    inversion Hall as [|? ? (_ & em & Hin & _ & Hnot) _]; subst.
    rewrite (Hknown em Hin) in Hnot. discriminate. }
  rewrite app_nil_r in Hnew.
  destruct r1 as [[found saved]|e]; intros H; injection H as <- <-.
  - cbn [expenses]. split; [exact Hnew|].
    intros stats E. injection E as <-. cbn [expenses_saved].
    now rewrite (Hn found saved eq_refl).
  - split; [exact Hnew | discriminate].
Qed.

End SweepEffects.

Lemma sweep_appends_witness :
  exists new,
    expenses
      (fst (pull_and_process_emails no_float no_text classify_receipt no_repr
              init_db [an_email] "2025-11-04"))
    = (expenses init_db ++ new)%list
    /\ Forall (swept_from init_db [an_email]) new.
Proof.
  destruct (sweep_appends no_float no_text classify_receipt no_repr init_db
              _ [an_email] "2025-11-04" _ eq_refl)
    as (_ & _ & new & Hnew & Hall & _).
  exists new. split; assumption.
Defined.

Lemma sweep_known_ids_witness :
  let d := fst (pull_and_process_emails no_float no_text classify_receipt
                  no_repr init_db [an_email] "2025-11-04") in
  expenses
    (fst (pull_and_process_emails no_float no_text classify_receipt no_repr
            d [an_email] "2025-11-05"))
  = expenses d.
Proof.
  intros d.
  refine (proj1 (sweep_known_ids no_float no_text classify_receipt no_repr d
                   _ [an_email] "2025-11-05" _ _ eq_refl)).
  intros em [<-|[]]. reflexivity.
Defined.

(** ** More on the tools *)








Lemma lower_char_idem c : lower_char (lower_char c) = lower_char c.
Proof.
  unfold lower_char.
  destruct (Nat.leb 65 (nat_of_ascii c) && Nat.leb (nat_of_ascii c) 90)%bool
    eqn:E; [|now rewrite E].
  apply andb_true_iff in E. destruct E as [E1 E2].
  apply Nat.leb_le in E1, E2.
  rewrite nat_ascii_embedding by lia.
  replace (Nat.leb (nat_of_ascii c + 32) 90) with false
    by (symmetry; apply Nat.leb_gt; lia).
  now rewrite andb_false_r.
Qed.

Lemma lower_idem s : lower (lower s) = lower s.
Proof.
  induction s as [|c s IH]; cbn [lower]; [reflexivity|].
  now rewrite lower_char_idem, IH.
Qed.



(** ** Dates that the calendar refuses *)





Lemma assign_category_effect_witness :
  assign_category_to_expense november_db 99 "Food" = november_db.
Proof.
  apply (assign_category_effect november_db 99 "Food").
  intros r Hin. cbn in Hin.
  repeat (destruct Hin as [<-|Hin]; [discriminate|]). destruct Hin.
Defined.

Lemma get_expenses_between_spec_witness :
  get_expenses_between november_db "2025-11-30" "2025-11-01" = [].
Proof.
  apply (get_expenses_between_spec november_db "2025-11-30" "2025-11-01").
  reflexivity.
Defined.

Lemma aggregate_by_field_shape_witness :
  aggregate_by_field november_db "2025-11-01" "2025-11-30" "amount; --"
  = aggregate_by_field november_db "2025-11-01" "2025-11-30" "category".
Proof.
  apply (aggregate_by_field_shape november_db "2025-11-01" "2025-11-30"
           "amount; --").
  discriminate.
Defined.

Lemma set_budget_get_budgets_witness :
  budget_of "Fun" (get_budgets (set_budget food_db "Food" 250 "monthly"))
  = budget_of "Fun" (get_budgets food_db).
Proof.
  apply (set_budget_get_budgets food_db "Food" 250 "monthly").
  discriminate.
Defined.

(** ** The categories in use *)

(** [SELECT DISTINCT]: each value once; SQL leaves their order open, here
    it is the order of first appearance. *)
Definition distinct (l : list string) : list string :=
  fold_left
    (fun seen x => if existsb (String.eqb x) seen then seen
                   else (seen ++ [x])%list)
    l [].

(** The non-null values of [category], for [WHERE category IS NOT NULL]. *)
Fixpoint non_null (l : list (option string)) : list string :=
  match l with
  | [] => []
  | Some s :: l' => s :: non_null l'
  | None :: l' => non_null l'
  end.

Definition list_categories (d : db) : list string :=
  filter (fun c => negb (String.eqb c ""))
    (distinct (non_null (map e_category (expenses d)))).

(** [sorted(cats)], from expense_agent.py. *)
Definition list_available_categories (d : db) : list string :=
  order_by String.leb (list_categories d).

Lemma distinct_snoc l x :
  distinct (l ++ [x])
  = if existsb (String.eqb x) (distinct l) then distinct l
    else (distinct l ++ [x])%list.
Proof. unfold distinct. now rewrite fold_left_app. Qed.

Lemma existsb_eqb_in x l : existsb (String.eqb x) l = true <-> In x l.
Proof.
  rewrite existsb_exists. split.
  - intros (y & Hin & E). apply String.eqb_eq in E. now subst.
  - intros Hin. exists x. split; [exact Hin | apply String.eqb_refl].
Qed.

Lemma distinct_spec l :
  NoDup (distinct l) /\ forall x, In x (distinct l) <-> In x l.
Proof.
  induction l as [|y l [IHnd IHin]] using rev_ind.
  - split; [constructor | tauto].
  - rewrite distinct_snoc.
    destruct (existsb (String.eqb y) (distinct l)) eqn:E.
    + split; [exact IHnd|]. intros x. rewrite IHin, in_app_iff. cbn.
      apply existsb_eqb_in in E. apply IHin in E.
      split; [tauto|]. intros [H|[<-|[]]]; assumption.
    + assert (~ In y (distinct l)) as Hnot.
      { intros H. apply existsb_eqb_in in H. congruence. }
      split.
      * apply NoDup_app; auto.
        -- constructor; [intros []|constructor].
        -- intros x Hx [<-|[]]. contradiction.
      * intros x. rewrite !in_app_iff, IHin. tauto.
Qed.

Lemma non_null_in s l : In s (non_null l) <-> In (Some s) l.
Proof.
  induction l as [|[t|] l IH]; cbn [non_null In].
  - tauto.
  - rewrite IH. split; intros [H|H]; auto; left; congruence.
  - rewrite IH. split; [auto|]. intros [H|H]; [discriminate | exact H].
Qed.

Lemma list_categories_in d c :
  In c (list_categories d)
  <-> c <> "" /\ exists r, In r (expenses d) /\ e_category r = Some c.
Proof.
  destruct (distinct_spec (non_null (map e_category (expenses d))))
    as (_ & Hin).
  unfold list_categories.
  rewrite filter_In, Hin, non_null_in, in_map_iff, negb_true_iff,
    String.eqb_neq.
  split.
  - intros [(r & E & Hr) Hne]. split; [exact Hne|]. now exists r.
  - intros [Hne (r & Hr & E)]. split; [now exists r | exact Hne].
Qed.

(** [list_categories] answers each category that some expense has, once,
    leaving out NULL and the empty text; [list_available_categories]
    answers the same categories in ascending order. *)
Theorem list_available_categories_spec (d : db) :
  (forall c, In c (list_categories d)
             <-> c <> "" /\ exists r, In r (expenses d)
                                      /\ e_category r = Some c)
  /\ NoDup (list_categories d)
  /\ Permutation (list_available_categories d) (list_categories d)
  /\ StronglySorted (fun a b => String.leb a b = true)
       (list_available_categories d).
Proof.
  destruct (distinct_spec (non_null (map e_category (expenses d))))
    as (Hnd & Hin).
  split; [|split; [|split]].
  - intros c. apply list_categories_in.
  - now apply NoDup_filter.
  - apply order_by_perm.
  - apply order_by_sorted.
    + apply String.leb_total.
    + apply string_leb_trans.
Qed.

Example categories_november :
  list_available_categories november_db = ["Food"; "Transport"; "food"].
Proof. reflexivity. Qed.

(** ** Fetching the new e-mails *)

(** [s[:n]] *)
Fixpoint take (n : nat) (s : string) : string :=
  match n, s with
  | S n', String c s' => String c (take n' s')
  | _, _ => EmptyString
  end.

(** [s.replace('-', '/')] *)
Fixpoint dash_to_slash (s : string) : string :=
  match s with
  | EmptyString => EmptyString
  | String c s' =>
      String (if Ascii.eqb c "-" then "/"%char else c) (dash_to_slash s')
  end.

(** The query of [fetch_new_emails]: the day of the last sweep, or the last
    seven days when no sweep has written the cursor. *)
Definition gmail_query (d : db) : string :=
  match last_sync_timestamp (get_sync_state d) with
  | Some last_timestamp =>
      if String.eqb last_timestamp "" then "newer_than:7d"
      else "after:" ++ dash_to_slash (take 10 last_timestamp)
  | None => "newer_than:7d"
  end.

(** The loop over the headers of a message: the last header of each name
    wins, names being read up to case. *)
Definition scan_headers (headers : list (string * string))
  : string * string * string :=
  fold_left
    (fun (acc : string * string * string) (header : string * string) =>
       let '(subject, sender, date) := acc in
       let name := lower (fst header) in
       if String.eqb name "subject" then (snd header, sender, date)
       else if String.eqb name "from" then (subject, snd header, date)
       else if String.eqb name "date" then (subject, sender, snd header)
       else acc)
    headers ("", "", "").

(** [body[:2000] + "..."] for a body of more than 2000 characters. *)
Definition truncate_body (body : string) : string :=
  if Nat.ltb 2000 (String.length body) then take 2000 body ++ "..."
  else body.

Section Fetch.

(** The Gmail service: the ids that [messages().list] answers for a query
    and a bound, and for an id the headers and the plain-text body of the
    message, [None] when getting or reading it raises. *)
Variable list_messages : string -> Z -> result (list string).
Variable get_message : string -> option (list (string * string) * string).

Definition fetch_message (d : db) (id : string) : option email :=
  if email_already_processed d id then None
  else
    match get_message id with
    | Some (headers, body) =>
        let '(subject, sender, date) := scan_headers headers in
        Some (mk_email id subject sender (truncate_body body) date)
    | None => None
    end.

Fixpoint fetch_messages (d : db) (ids : list string) : list email :=
  match ids with
  | [] => []
  | id :: rest =>
      match fetch_message d id with
      | Some em => em :: fetch_messages d rest
      | None => fetch_messages d rest
      end
  end.

Definition fetch_new_emails (d : db) (max_results : Z)
  : result (list email) :=
  let* messages := list_messages (gmail_query d) max_results in
  Ok (fetch_messages d messages).

End Fetch.

Lemma take_length n s : (String.length (take n s) <= n)%nat.
Proof.
  revert s. induction n as [|n IH]; intros [|c s]; cbn; try lia.
  specialize (IH s). lia.
Qed.

Lemma string_length_app s t :
  String.length (s ++ t) = (String.length s + String.length t)%nat.
Proof. induction s as [|c s IH]; cbn; [reflexivity | now rewrite IH]. Qed.

Lemma truncate_body_length body :
  (String.length (truncate_body body) <= 2003)%nat.
Proof.
  unfold truncate_body.
  destruct (Nat.ltb_spec 2000 (String.length body)) as [H|H].
  - rewrite string_length_app. pose proof (take_length 2000 body).
    change (String.length "...") with 3%nat. lia.
  - lia.
Qed.

Lemma truncate_body_short body :
  (String.length body <= 2000)%nat -> truncate_body body = body.
Proof.
  intros H. unfold truncate_body.
  destruct (Nat.ltb_spec 2000 (String.length body)); [lia | reflexivity].
Qed.

(** Every e-mail that [fetch_new_emails] answers was listed by the service
    for the query, has no row in [expenses] yet, and carries a body of at
    most 2003 characters; a message that has a row is never fetched. *)
Theorem fetch_new_emails_spec
  (list_messages : string -> Z -> result (list string))
  (get_message : string -> option (list (string * string) * string))
  (d : db) (max_results : Z) (emails : list email) :
  fetch_new_emails list_messages get_message d max_results = Ok emails ->
  exists ids,
    list_messages (gmail_query d) max_results = Ok ids
    /\ forall em, In em emails ->
       In (em_id em) ids
       /\ email_already_processed d (em_id em) = false
       /\ (String.length (em_body em) <= 2003)%nat
       /\ exists headers body,
            get_message (em_id em) = Some (headers, body)
            /\ em_body em = truncate_body body
            /\ (em_subject em, em_sender em, em_date em)
               = scan_headers headers.
Proof.
  unfold fetch_new_emails.
  destruct (list_messages (gmail_query d) max_results) as [ids|e];
    cbn [bind]; [|discriminate].
  intros H. injection H as <-. exists ids. split; [reflexivity|].
  induction ids as [|id ids IH]; cbn [fetch_messages]; [intros em []|].
  unfold fetch_message at 1.
  destruct (email_already_processed d id) eqn:Ep.
  { intros em Hin. destruct (IH em Hin) as (H1 & H2). split; [now right|auto]. }
  destruct (get_message id) as [[headers body]|] eqn:Eg.
  2:{ intros em Hin. destruct (IH em Hin) as (H1 & H2).
      split; [now right|auto]. }
  destruct (scan_headers headers) as [[subject sender] date] eqn:Eh.
  intros em [<-|Hin].
  - cbn [em_id em_body em_subject em_sender em_date].
    split; [now left|]. split; [exact Ep|].
    split; [apply truncate_body_length|].
    exists headers, body. rewrite Eh. auto.
  - destruct (IH em Hin) as (H1 & H2). split; [now right|auto].
Qed.

(** ** From the cursor to the next query *)

(** A text without dashes. *)
Definition plain (s : string) : Prop := dash_to_slash s = s.

Lemma dash_to_slash_app s t :
  dash_to_slash (s ++ t) = dash_to_slash s ++ dash_to_slash t.
Proof. induction s as [|c s IH]; cbn; [reflexivity | now rewrite IH]. Qed.

Lemma plain_app s t : plain s -> plain t -> plain (s ++ t).
Proof. unfold plain. intros Hs Ht. now rewrite dash_to_slash_app, Hs, Ht. Qed.

Lemma digit_char_plain d :
  0 <= d < 10 -> Ascii.eqb (PyDate.digit_char d) "-" = false.
Proof.
  intros Hd.
  assert (d = 0 \/ d = 1 \/ d = 2 \/ d = 3 \/ d = 4 \/ d = 5 \/ d = 6
          \/ d = 7 \/ d = 8 \/ d = 9) as Hc by lia.
  repeat (destruct Hc as [->|Hc]; [reflexivity|]). now subst.
Qed.

Lemma dec_digits_plain fuel :
  forall n acc, 0 <= n -> plain acc -> plain (PyDate.dec_digits fuel n acc).
Proof.
  induction fuel as [|fuel IH]; intros n acc Hn Hacc; [exact Hacc|].
  cbn [PyDate.dec_digits].
  assert (plain (String (PyDate.digit_char (n mod 10)) acc)) as Hacc'.
  { unfold plain in *. cbn [dash_to_slash].
    rewrite digit_char_plain by (apply Z.mod_pos_bound; lia).
    now rewrite Hacc. }
  destruct (n / 10 =? 0); [exact Hacc'|].
  apply IH; [apply Z.div_pos; lia | exact Hacc'].
Qed.

Lemma dec_digits_length fuel :
  forall n acc k, 0 <= n < 10 ^ Z.of_nat (S k) ->
  (String.length (PyDate.dec_digits fuel n acc)
   <= String.length acc + S k)%nat.
Proof.
  induction fuel as [|fuel IH]; intros n acc k Hn; [cbn; lia|].
  cbn [PyDate.dec_digits].
  destruct (Z.eqb_spec (n / 10) 0) as [E|E]; [cbn; lia|].
  destruct k as [|k].
  - exfalso. apply E. apply Z.div_small. cbn in Hn. lia.
  - rewrite Nat2Z.inj_succ, Z.pow_succ_r in Hn by lia.
    specialize (IH (n / 10) (String (PyDate.digit_char (n mod 10)) acc) k).
    cbn [String.length] in IH.
    assert (0 <= n / 10 < 10 ^ Z.of_nat (S k)) as Hdiv.
    { split; [apply Z.div_pos; lia|].
      apply Z.div_lt_upper_bound; lia. }
    specialize (IH Hdiv). lia.
Qed.

Lemma zeros_plain k : plain (PyDate.zeros k).
Proof.
  unfold plain. induction k as [|k IH]; cbn; [reflexivity | now rewrite IH].
Qed.

Lemma zeros_length k : String.length (PyDate.zeros k) = k.
Proof. induction k as [|k IH]; cbn; [reflexivity | now rewrite IH]. Qed.

(** A number of at most [S k] digits, padded to [S k] places, takes
    [S k] characters, none of them a dash. *)
Lemma format_d_digits k n :
  0 <= n < 10 ^ Z.of_nat (S k) ->
  String.length (PyDate.format_d (S k) n) = S k
  /\ plain (PyDate.format_d (S k) n).
Proof.
  intros Hn. unfold PyDate.format_d.
  destruct (Z.ltb_spec n 0) as [Hneg|_]; [lia|]. cbv zeta.
  pose proof (dec_digits_length (S (Z.to_nat (Z.log2 n))) n "" k Hn) as Hlen.
  fold (PyDate.decimal n) in Hlen. cbn [String.length] in Hlen.
  split.
  - rewrite string_length_app, zeros_length. lia.
  - apply plain_app; [apply zeros_plain|].
    apply dec_digits_plain; [lia | reflexivity].
Qed.

Lemma take_app s t : take (String.length s) (s ++ t) = s.
Proof. induction s as [|c s IH]; cbn; [now destruct t | now rewrite IH]. Qed.

Lemma string_app_assoc (s t u : string) : (s ++ t) ++ u = s ++ (t ++ u).
Proof. induction s as [|c s IH]; cbn; [reflexivity | now rewrite IH]. Qed.

(** The date of a timestamp written with slashes. *)
Definition slash_date (t : PyDate.date) : string :=
  PyDate.format_d 4 (PyDate.year t) ++ "/"
  ++ PyDate.format_d 2 (PyDate.month t) ++ "/"
  ++ PyDate.format_d 2 (PyDate.day t).

Lemma query_of_timestamp (t : PyDate.date) (rest : string) :
  0 <= PyDate.year t < 10000 -> 0 <= PyDate.month t < 100 ->
  0 <= PyDate.day t < 100 ->
  dash_to_slash (take 10 (PyDate.isoformat t ++ rest)) = slash_date t.
Proof.
  intros Hy Hm Hd.
  destruct (format_d_digits 3 (PyDate.year t) Hy) as (Ly & Dy).
  destruct (format_d_digits 1 (PyDate.month t) Hm) as (Lm & Dm).
  destruct (format_d_digits 1 (PyDate.day t) Hd) as (Ld & Dd).
  unfold plain in Dy, Dm, Dd.
  assert (String.length (PyDate.isoformat t) = 10%nat) as Hlen.
  { unfold PyDate.isoformat. rewrite !string_length_app, Ly, Lm, Ld.
    reflexivity. }
  rewrite <- Hlen, take_app. unfold PyDate.isoformat, slash_date.
  rewrite !dash_to_slash_app, Dy, Dm, Dd. reflexivity.
Qed.

(** Without a cursor, or with an empty one, the query asks for the last
    seven days; with a cursor written at a moment of day [t], it asks for
    the messages after that day, whatever the time of the day was: the
    re-scan has the granularity of a day. *)
Theorem gmail_query_spec (d : db) :
  (last_sync_timestamp (get_sync_state d) = None -> 
   gmail_query d = "newer_than:7d")
  /\ (last_sync_timestamp (get_sync_state d) = Some "" ->
      gmail_query d = "newer_than:7d")
  /\ (forall (t : PyDate.date) (rest : string) history_id,
      PyDate.MINYEAR <= PyDate.year t <= PyDate.MAXYEAR ->
      1 <= PyDate.month t <= 12 -> 1 <= PyDate.day t <= 31 ->
      gmail_query
        (set_sync_state d (Some (PyDate.isoformat t ++ rest)) history_id)
      = "after:" ++ slash_date t).
Proof.
  unfold gmail_query. split; [|split].
  - now intros ->.
  - now intros ->.
  - intros t rest history_id Hy Hm Hd.
    unfold PyDate.MINYEAR, PyDate.MAXYEAR in Hy.
    assert (last_sync_timestamp
              (get_sync_state
                 (set_sync_state d (Some (PyDate.isoformat t ++ rest))
                    history_id))
            = Some (PyDate.isoformat t ++ rest)) as ->.
    { unfold get_sync_state, set_sync_state. cbn [sync_state].
      now destruct (sync_state d) as [[t0 h0]|]. }
    destruct (String.eqb_spec (PyDate.isoformat t ++ rest) "") as [E|_].
    + exfalso. apply (f_equal String.length) in E.
      rewrite string_length_app in E.
      destruct (format_d_digits 3 (PyDate.year t) ltac:(cbn; lia))
        as (Ly & _).
      unfold PyDate.isoformat in E. rewrite string_length_app, Ly in E.
      cbn in E. lia.
    + f_equal. apply query_of_timestamp; lia.
Qed.

Lemma gmail_query_spec_witness :
  gmail_query
    (set_sync_state init_db
       (Some (PyDate.isoformat (PyDate.mkdate 2025 11 4)
              ++ "T09:00:00.000000+00:00")) None)
  = "after:2025/11/04".
Proof.
  apply (gmail_query_spec init_db);
    unfold PyDate.MINYEAR, PyDate.MAXYEAR; cbn; lia.
Defined.

(** ** Looking up an e-mail id *)

Section Processed.

Variable float_of_str : string -> option Q.
Variable text_of_real : Q -> string.

(** After a successful [save_expense], [email_already_processed] answers
    true for the id of the new row and as before for any other id; and
    while it answers true for an id, recording an expense with that id
    raises. *)
Theorem email_already_processed_save (d : db) (exp : pydict) (k : string) :
  (forall d', save_expense float_of_str text_of_real d exp = Ok d' ->
   exists email_id,
     bind_text text_of_real (dict_get exp "email_id") = Ok email_id
     /\ email_already_processed d' k
        = email_already_processed d k || opt_string_eqb email_id (Some k))
  /\ (email_already_processed d k = true ->
      bind_text text_of_real (dict_get exp "email_id") = Ok (Some k) ->
      exists e, save_expense float_of_str text_of_real d exp = Raise e).
Proof.
  split.
  - intros d' Hs. apply save_expense_ok_inv in Hs.
    destruct Hs as (amount & date & vendor & currency & category & source
                    & notes & email_id & _ & _ & _ & _ & _ & _ & _ & E & _
                    & ->).
    exists email_id. split; [exact E|].
    unfold email_already_processed. cbn [expenses e_email_id].
    rewrite existsb_app. cbn [existsb e_email_id]. now rewrite orb_false_r.
  - intros Hp E.
    destruct (save_expense float_of_str text_of_real d exp) as [d'|e] eqn:Hs;
      [|eauto].
    apply save_expense_ok_inv in Hs.
    destruct Hs as (amount & date & vendor & currency & category & source
                    & notes & email_id & _ & _ & _ & _ & _ & _ & _ & E' & Et
                    & _).
    rewrite E in E'. injection E' as <-.
    unfold email_id_taken in Et. unfold email_already_processed in Hp.
    congruence.
Qed.

End Processed.

Lemma email_already_processed_save_witness :
  exists e,
    save_expense no_float no_text november_db
      [("amount", PyFloat 3); ("email_id", PyStr "m1")] = Raise e.
Proof.
  apply (email_already_processed_save no_float no_text november_db
           [("amount", PyFloat 3); ("email_id", PyStr "m1")] "m1");
    reflexivity.
Defined.

(** ** The order of the monthly summary *)

Lemma round_half_even_bounds q :
  Qfloor q <= round_half_even q <= Qfloor q + 1.
Proof.
  unfold round_half_even.
  destruct (_ ?= _)%Q; [destruct (Z.even _)| |]; lia.
Qed.

Lemma round_half_even_mono x y :
  (x <= y)%Q -> round_half_even x <= round_half_even y.
Proof.
  intros Hxy. pose proof (Qfloor_resp_le x y Hxy) as Hf.
  destruct (Z.eq_dec (Qfloor x) (Qfloor y)) as [E|E].
  - unfold round_half_even. rewrite E.
    destruct (Qcompare_spec (x - inject_Z (Qfloor y)) (1 # 2)) as [Hx|Hx|Hx];
      destruct (Qcompare_spec (y - inject_Z (Qfloor y)) (1 # 2))
        as [Hy|Hy|Hy];
      try destruct (Z.even (Qfloor y)); try lia; exfalso; lra.
  - pose proof (round_half_even_bounds x). pose proof (round_half_even_bounds y).
    lia.
Qed.

Lemma round2_mono x y : (x <= y)%Q -> (round2 x <= round2 y)%Q.
Proof.
  intros Hxy. unfold round2, Qle. cbn [Qnum Qden].
  apply Z.mul_le_mono_nonneg_r; [lia|].
  apply round_half_even_mono. lra.
Qed.

Lemma sorted_firstn {A} (R : A -> A -> Prop) n l :
  StronglySorted R l -> StronglySorted R (firstn n l).
Proof.
  revert l. induction n as [|n IH]; intros l Hs; [constructor|].
  destruct l as [|x l]; [constructor|].
  inversion Hs as [|? ? Hs' Hall]; subst. cbn [firstn].
  constructor; [now apply IH|].
  rewrite Forall_forall in *. intros y Hy. apply Hall.
  rewrite <- (firstn_skipn n l). apply in_or_app. now left.
Qed.

(** The categories and the vendors of [get_monthly_summary] come in
    descending order of amount, the largest first, and no line is larger
    than the first one. *)
Theorem get_monthly_summary_order (d : db) (now_year now_month : Z)
  (year month : option Z) (s : monthly_summary) :
  get_monthly_summary d now_year now_month year month = Ok s ->
  StronglySorted (fun a b => (cl_amount b <= cl_amount a)%Q)
    (ms_by_category s)
  /\ StronglySorted (fun a b => (vl_amount b <= vl_amount a)%Q)
       (ms_top_vendors s).
Proof.
  unfold get_monthly_summary.
  destruct (iso_first_last_of_month _ _) as [[start_date end_date]|e];
    cbn [bind]; [|discriminate].
  match goal with
  | |- Ok ?x = Ok _ -> _ => intros H; assert (x = s) as <- by congruence
  end.
  unfold ms_by_category, ms_top_vendors. split.
  - apply (sorted_map (fun a b => (total b <= total a)%Q)).
    + intros a b Hab. cbn [cl_amount]. now apply round2_mono.
    + apply sorted_firstn, aggregate_by_field_sorted.
  - apply (sorted_map (fun a b => (total b <= total a)%Q)).
    + intros a b Hab. cbn [vl_amount]. now apply round2_mono.
    + apply sorted_firstn, aggregate_by_field_sorted.
Qed.

Lemma get_monthly_summary_order_witness :
  StronglySorted (fun a b => (cl_amount b <= cl_amount a)%Q)
    [ mk_category_line "Uncategorized" (3000 # 100) 1;
      mk_category_line "food" (2000 # 100) 1;
      mk_category_line "Food" (1500 # 100) 1;
      mk_category_line "Transport" (250 # 100) 1 ].
Proof.
  exact (proj1 (get_monthly_summary_order november_db 2025 11 None None _
                  eq_refl)).
Defined.

Definition inbox_list (q : string) (max_results : Z) : result (list string) :=
  Ok ["m1"; "m2"; "m3"].

Definition inbox_get (id : string)
  : option (list (string * string) * string) :=
  if String.eqb id "m3" then None
  else Some ([("From", "shop@example.com"); ("SUBJECT", "Your receipt");
              ("Subject", "Re: Your receipt")], "Total: 12.00").

Example fetch_inbox :
  fetch_new_emails inbox_list inbox_get november_db 50
  = Ok [mk_email "m2" "Re: Your receipt" "shop@example.com" "Total: 12.00" ""].
Proof. reflexivity. Qed.

Lemma fetch_new_emails_spec_witness :
  exists ids,
    inbox_list (gmail_query november_db) 50 = Ok ids
    /\ forall em,
       In em [mk_email "m2" "Re: Your receipt" "shop@example.com"
                "Total: 12.00" ""] ->
       In (em_id em) ids
       /\ email_already_processed november_db (em_id em) = false
       /\ (String.length (em_body em) <= 2003)%nat
       /\ exists headers body,
            inbox_get (em_id em) = Some (headers, body)
            /\ em_body em = truncate_body body
            /\ (em_subject em, em_sender em, em_date em)
               = scan_headers headers.
Proof.
  exact (fetch_new_emails_spec inbox_list inbox_get november_db 50 _ eq_refl).
Defined.

(** ** Recording, then querying *)

Section SaveThenQuery.

Variable float_of_str : string -> option Q.
Variable text_of_real : Q -> string.

(** A successful [save_expense] adds one row and changes nothing else: a
    range query answers the rows it answered before and, when the date of
    the new row is in the range, that row too; the total of the range
    grows by the amount of the new row, or stays when the row is out of the
    range or has no date. *)
Theorem save_expense_then_query (d d' : db) (exp : pydict)
  (start_date end_date : string) :
  save_expense float_of_str text_of_real d exp = Ok d' ->
  exists row,
    expenses d' = (expenses d ++ [row])%list
    /\ budgets d' = budgets d /\ sync_state d' = sync_state d
    /\ bind_text text_of_real (dict_get exp "date") = Ok (e_date row)
    /\ bind_text text_of_real (dict_get exp "vendor") = Ok (e_vendor row)
    /\ bind_text text_of_real (dict_get exp "category") = Ok (e_category row)
    /\ Permutation (get_expenses_between d' start_date end_date)
         (get_expenses_between d start_date end_date
          ++ (if between start_date end_date (e_date row) then [row]
              else []))
    /\ (total_spent d' start_date end_date
        == total_spent d start_date end_date
           + (if between start_date end_date (e_date row)
              then e_amount row else 0))%Q.
Proof.
  intros Hs. apply save_expense_ok_inv in Hs.
  destruct Hs as (amount & date & vendor & currency & category & source
                  & notes & email_id & _ & E1 & E2 & _ & E4 & _ & _ & _ & _
                  & ->).
  eexists. split; [reflexivity|].
  cbn [budgets sync_state e_date e_vendor e_category e_amount].
  repeat split; auto.
  - unfold get_expenses_between. cbn [expenses].
    rewrite !order_by_perm, filter_app. cbn [filter e_date].
    reflexivity.
  - rewrite !total_spent_sum. unfold in_range. cbn [expenses].
    rewrite filter_app, map_app, py_sum_app. cbn [filter e_date].
    destruct (between start_date end_date date); cbn [map e_amount].
    + now rewrite py_sum_single.
    + now rewrite py_sum_nil.
Qed.

End SaveThenQuery.

Lemma save_expense_then_query_witness :
  exists row,
    expenses
      (mk_db
         [mk_expense 1 (Some "2025-11-03") (Some "Cafe") 0%Q None None None
            None None]
         1 [] 0 None)
    = (expenses init_db ++ [row])%list
    /\ (total_spent
          (mk_db
             [mk_expense 1 (Some "2025-11-03") (Some "Cafe") 0%Q None None
                None None None]
             1 [] 0 None) "2025-11-01" "2025-11-30"
        == total_spent init_db "2025-11-01" "2025-11-30"
           + (if between "2025-11-01" "2025-11-30" (e_date row)
              then e_amount row else 0))%Q.
Proof.
  destruct (save_expense_then_query no_float no_text init_db _
              [("vendor", PyStr "Cafe"); ("amount", PyNone);
               ("date", PyStr "2025-11-03")]
              "2025-11-01" "2025-11-30" eq_refl)
    as (row & H1 & _ & _ & _ & _ & _ & _ & H2).
  exists row. split; assumption.
Defined.

(** ** Categories after a write *)

Section CategoriesAfterWrites.

Variable float_of_str : string -> option Q.
Variable text_of_real : Q -> string.

Lemma str_or_nonempty s t : t <> "" -> str_or s t <> "".
Proof.
  intros Ht. unfold str_or. destruct s as [x|]; [|exact Ht].
  destruct (String.eqb_spec x ""); assumption.
Qed.

(** The category of an expense recorded from the chat, "Uncategorized" when
    none is given, is listed by [list_available_categories] afterwards; so
    is a non-empty category assigned to an expense that exists. *)
Theorem categories_after_writes (d : db) :
  (forall today amount vendor category date currency notes,
     In (str_or category "Uncategorized")
       (list_available_categories
          (fst (record_expense float_of_str text_of_real d today amount
                  vendor category date currency notes))))
  /\ (forall r category,
      In r (expenses d) -> category <> "" ->
      In category
        (list_available_categories
           (assign_category_to_expense d (e_id r) category))).
Proof.
  split.
  - intros today amount vendor category date currency notes.
    apply (Permutation_in _ (Permutation_sym (order_by_perm _ _))).
    apply list_categories_in.
    split; [apply str_or_nonempty; discriminate|].
    destruct (record_expense_run float_of_str text_of_real d today amount
                vendor category date currency notes) as (-> & _).
    exists (chat_row d today amount vendor category date currency notes).
    split; [|reflexivity].
    cbn [expenses]. apply in_or_app. right. now left.
  - intros r category Hin Hne.
    apply (Permutation_in _ (Permutation_sym (order_by_perm _ _))).
    apply list_categories_in. split; [exact Hne|].
    exists (recategorise (e_id r) category r). split.
    + rewrite assign_category_expenses. now apply in_map.
    + unfold recategorise. now rewrite Z.eqb_refl.
Qed.

End CategoriesAfterWrites.

Lemma categories_after_writes_witness :
  In "Travel"
    (list_available_categories
       (assign_category_to_expense november_db 4 "Travel")).
Proof.
  apply (proj2 (categories_after_writes no_float no_text november_db)
           (mk_expense 4 (Some "2025-11-20") None 30 None None (Some "gmail")
              None (Some "m1")) "Travel").
  - cbn. tauto.
  - discriminate.
Defined.

(** ** The counters of a sweep *)

(** The counters that a sweep returns are ordered: no more expenses saved
    than found, no more found than e-mails checked. *)
Theorem sweep_stats_ordered
  (float_of_str : string -> option Q) (text_of_real : Q -> string)
  (classify_email : string -> string -> string -> pyval)
  (py_repr : pyval -> string)
  (d d' : db) (emails : list email) (now : string) (stats : sweep_stats) :
  pull_and_process_emails float_of_str text_of_real classify_email py_repr d
    emails now = (d', Ok stats) ->
  0 <= expenses_saved stats <= expenses_found stats
  /\ expenses_found stats <= emails_checked stats
  /\ emails_checked stats = Z.of_nat (List.length emails).
Proof.
  unfold pull_and_process_emails.
  destruct (process_emails _ _ _ _ d 0 0 emails) as [d1 [[found saved]|e]]
    eqn:E; intros H; [|discriminate].
  injection H as <- <-.
  apply process_emails_spec in E. destruct E as (_ & Hf & _ & Hle & _).
  cbn [expenses_saved expenses_found emails_checked].
  assert (forall (p q : email -> bool) l,
            (forall x, q x = true -> p x = true) ->
            (List.length (filter q l) <= List.length (filter p l)
             <= List.length l)%nat) as Hcount.
  { intros p q l Hpq. induction l as [|x l IH]; cbn; [lia|].
    destruct (q x) eqn:Eq.
    - rewrite (Hpq x Eq). cbn. lia.
    - destruct (p x); cbn; lia. }
  specialize (Hcount (is_confident classify_email)
                (is_recordable classify_email) emails).
  assert (forall x, is_recordable classify_email x = true ->
                    is_confident classify_email x = true) as Himp.
  { intros x Hx. unfold is_recordable in Hx. apply andb_true_iff in Hx.
    exact (proj1 Hx). }
  specialize (Hcount Himp). lia.
Qed.

Lemma sweep_stats_ordered_witness :
  0 <= expenses_saved (mk_stats 1 1 0) <= expenses_found (mk_stats 1 1 0)
  /\ expenses_found (mk_stats 1 1 0) <= emails_checked (mk_stats 1 1 0)
  /\ emails_checked (mk_stats 1 1 0) = Z.of_nat (List.length [an_email]).
Proof.
  exact (sweep_stats_ordered no_float no_text classify_no_amount no_repr
           init_db _ [an_email] "2025-11-04" (mk_stats 1 1 0) eq_refl).
Defined.
